(** * CrossFit WOD scraper

    A shallow embedding of [CrossFitWODScraper._extract_workout_content]
    (src/cf_mainsite/crossfitscraper.py, lines 113-334) and of the Python
    string, regular-expression and BeautifulSoup operations it calls,
    then of the date codes, of [WorkoutData.to_csv_row],
    [parse_workout_data] and [CSVLogger], followed by the properties of
    the extracted record, of its CSV row and of the log.

    Text model.  A Python [str] is a sequence of code points; here a
    character is an [ascii], read as a code point below 256 (Latin-1).
    On that range [str.lower] acts character by character, which is what
    [lower] below implements. *)

From Stdlib Require Import Strings.String Strings.Ascii Lists.List.
From Stdlib Require Import Arith.Arith NArith.NArith Bool.Bool Lia.
From Stdlib Require Import Sorting.Sorted.
Import ListNotations.
Open Scope string_scope.
Open Scope list_scope.

(* ================================================================== *)
(** ** Python [str] operations *)

Module Py.

Definition ord (c : ascii) : N := N_of_ascii c.

Definition between (lo hi : N) (c : ascii) : bool :=
  ((lo <=? ord c) && (ord c <=? hi))%N.

Definition is_code (n : N) (c : ascii) : bool := (ord c =? n)%N.

(** [c.isupper()]: A-Z and the Latin-1 capitals U+00C0..U+00DE but the
    multiplication sign U+00D7. *)
Definition char_isupper (c : ascii) : bool :=
  between 65 90 c || (between 192 222 c && negb (is_code 215 c)).

(** [c.islower()]: a-z, the ordinal indicators U+00AA and U+00BA, the
    micro sign U+00B5, and U+00DF..U+00FF but the division sign U+00F7. *)
Definition char_islower (c : ascii) : bool :=
  between 97 122 c || is_code 170 c || is_code 181 c || is_code 186 c
  || (between 223 255 c && negb (is_code 247 c)).

(** [c.lower()]: every capital below 256 has its small letter 32 places
    further. *)
Definition char_lower (c : ascii) : ascii :=
  if char_isupper c then ascii_of_N (ord c + 32) else c.

(** [c.isspace()], also the class [\s] of [re] on [str] patterns. *)
Definition char_isspace (c : ascii) : bool :=
  between 9 13 c || between 28 32 c || is_code 133 c || is_code 160 c.

(** The class [\d] of [re]: below 256 the decimal digits are 0-9. *)
Definition char_isdigit (c : ascii) : bool := between 48 57 c.

Definition newline : ascii := ascii_of_N 10.
Definition nl : string := String newline "".

Fixpoint lower (s : string) : string :=
  match s with
  | "" => ""
  | String c r => String (char_lower c) (lower r)
  end.

Fixpoint lstrip (s : string) : string :=
  match s with
  | "" => ""
  | String c r => if char_isspace c then lstrip r else s
  end.

Fixpoint rstrip (s : string) : string :=
  match s with
  | "" => ""
  | String c r =>
      match rstrip r with
      | "" => if char_isspace c then "" else String c ""
      | r' => String c r'
      end
  end.

(** [s.strip()] *)
Definition strip (s : string) : string := rstrip (lstrip s).

(** [s.startswith(p)] *)
Definition startswith (s p : string) : bool := prefix p s.

(** [sub in s] *)
Fixpoint str_in (sub s : string) : bool :=
  prefix sub s ||
  match s with
  | "" => false
  | String _ r => str_in sub r
  end.

(** [s.split('\n')] *)
Fixpoint split_nl (s : string) : list string :=
  match s with
  | "" => [""]
  | String c r =>
      if Ascii.eqb c newline then "" :: split_nl r
      else match split_nl r with
           | h :: t => String c h :: t
           | [] => [String c ""]
           end
  end.

(** [sep.join(parts)] *)
Definition join (sep : string) (parts : list string) : string :=
  String.concat sep parts.

(** [any(f(x) for x in xs)] *)
Definition any {A : Type} (f : A -> bool) (xs : list A) : bool := existsb f xs.

Fixpoint any_char (f : ascii -> bool) (s : string) : bool :=
  match s with
  | "" => false
  | String c r => f c || any_char f r
  end.

(** [s.isupper()]: no small letter and at least one capital. *)
Definition isupper (s : string) : bool :=
  negb (any_char char_islower s) && any_char char_isupper s.

(** [s.istitle()], the loop of CPython's [unicode_istitle]: a capital
    may only follow an uncased character, a small letter only a cased
    one, and there is at least one cased character. *)
Fixpoint istitle_from (previous_is_cased cased : bool) (s : string) : bool :=
  match s with
  | "" => cased
  | String c r =>
      if char_isupper c then
        if previous_is_cased then false else istitle_from true true r
      else if char_islower c then
        if previous_is_cased then istitle_from true true r else false
      else istitle_from false cased r
  end.

Definition istitle (s : string) : bool := istitle_from false false s.

(** [s[n:]] *)
Fixpoint drop (n : nat) (s : string) : string :=
  match n, s with
  | S n', String _ r => drop n' r
  | _, _ => s
  end.

(** [s[:n]] *)
Fixpoint take (n : nat) (s : string) : string :=
  match n, s with
  | S n', String c r => String c (take n' r)
  | _, _ => ""
  end.

(** [list(dict.fromkeys(xs))]: a key that is new goes to the end of the
    dict, a key already there keeps its place. *)
Definition dict_insert_key (keys : list string) (k : string) : list string :=
  if existsb (String.eqb k) keys then keys else keys ++ [k].

Definition dict_fromkeys (xs : list string) : list string :=
  fold_left dict_insert_key xs [].

(** [xs.index(x)], with [len(xs)] where Python raises. *)
Fixpoint index_of (x : string) (xs : list string) : nat :=
  match xs with
  | [] => 0
  | y :: r => if String.eqb x y then 0 else S (index_of x r)
  end.

End Py.

(* ================================================================== *)
(** ** Backtracking matchers for the three [re] patterns of the source

    A matcher takes the text left to read and a continuation for the rest
    of the pattern; it tries its alternatives in [re]'s priority order and
    gives the first one the continuation accepts. *)

Module Re.
Import Py.

Section Combinators.
Context {A : Type}.

Definition cont : Type := string -> option A.
Definition matcher : Type := string -> cont -> option A.

Definition orelse (x y : option A) : option A :=
  match x with Some _ => x | None => y end.

(** a literal *)
Definition lit (t : string) : matcher :=
  fun s k => if prefix t s then k (drop (String.length t) s) else None.

(** one character of a class *)
Definition one (p : ascii -> bool) : matcher :=
  fun s k =>
    match s with
    | String c r => if p c then k r else None
    | "" => None
    end.

(** [p+], greedy: the longest run first, then shorter ones *)
Fixpoint plus_greedy (p : ascii -> bool) (s : string) (k : cont) : option A :=
  match s with
  | String c r => if p c then orelse (plus_greedy p r k) (k r) else None
  | "" => None
  end.

(** [p+?], lazy: one character first, then longer runs *)
Fixpoint plus_lazy (p : ascii -> bool) (s : string) (k : cont) : option A :=
  match s with
  | String c r => if p c then orelse (k r) (plus_lazy p r k) else None
  | "" => None
  end.

(** [(?:m)?], greedy *)
Definition opt (m : matcher) : matcher :=
  fun s k => orelse (m s k) (k s).

(** [m1|m2] *)
Definition alt (m1 m2 : matcher) : matcher :=
  fun s k => orelse (m1 s k) (m2 s k).

(** [m1 m2] *)
Definition seq (m1 m2 : matcher) : matcher :=
  fun s k => m1 s (fun s' => m2 s' k).

End Combinators.

(** [re.search(m, s)] as a truth value: the first position where [m]
    matches. *)
Fixpoint search (m : @matcher unit) (s : string) : bool :=
  match m s (fun _ => Some tt) with
  | Some _ => true
  | None => match s with
            | "" => false
            | String _ r => search m r
            end
  end.

(** [event\s+\d+] (line 160) *)
Definition event_re : @matcher unit :=
  seq (lit "event") (seq (plus_greedy char_isspace) (plus_greedy char_isdigit)).

(** [$] without MULTILINE: the end of the text, or just before a
    newline that ends it. *)
Definition at_end (s : string) : bool :=
  match s with
  | "" => true
  | String c "" => Ascii.eqb c newline
  | _ => false
  end.

(** [re.match(r'^[A-Z][a-z]+$', s)] (line 180) *)
Definition capitalized_word (s : string) : bool :=
  match seq (one (between 65 90)) (plus_greedy (between 97 122)) s
          (fun r => if at_end r then Some tt else None) with
  | Some _ => true
  | None => false
  end.

(** the class [[a-zA-Z\-\s]] *)
Definition name_char (c : ascii) : bool :=
  between 97 122 c || between 65 90 c || is_code 45 c || char_isspace c.

(** the lookahead [(?=\n|,|$)] *)
Definition name_end (s : string) : bool :=
  match s with
  | "" => true
  | String c _ => Ascii.eqb c newline || is_code 44 c || at_end s
  end.

(** [(\d+(?:,\d+)?(?:-meter|-mile)?)\s+([a-zA-Z\-\s]+?)(?=\n|,|$)]
    (line 245) tried at the start of [s]: the two groups and the text
    after the match. *)
Definition movement_re (s : string) : option (string * string * string) :=
  seq (plus_greedy char_isdigit)
      (seq (opt (seq (lit ",") (plus_greedy char_isdigit)))
           (opt (alt (lit "-meter") (lit "-mile"))))
    s (fun s1 =>
  plus_greedy char_isspace s1 (fun s2 =>
  plus_lazy name_char s2 (fun s3 =>
  if name_end s3
  then Some (take (String.length s - String.length s1) s,
             take (String.length s2 - String.length s3) s2,
             s3)
  else None))).

(** [re.findall]: the matches from left to right, each search resuming
    where the match before it ended.  A match reads at least one
    character, so [fuel] above the length of the text is never used up. *)
Fixpoint findall_from (fuel : nat) (s : string) : list (string * string) :=
  match fuel with
  | 0 => []
  | S fuel' =>
      match movement_re s with
      | Some (g1, g2, rest) => (g1, g2) :: findall_from fuel' rest
      | None => match s with
                | "" => []
                | String _ r => findall_from fuel' r
                end
      end
  end.

Definition findall (s : string) : list (string * string) :=
  findall_from (S (String.length s)) s.

End Re.

(* ================================================================== *)
(** ** The parsed document

    [soup] is the BeautifulSoup tree as it stands at line 139, once the
    two loops of lines 126-137 have cut the comment threads out of it:
    every later statement of the method reads the tree through
    [get_text] and [find_all] only. *)

Module Soup.

#[local] Set Warnings "-register-all".

Inductive node : Type :=
| NavigableString (s : string)
| Tag (name : string) (contents : list node).

(** [node.get_text()]: the strings below the node, in document order. *)
Fixpoint get_text (n : node) : string :=
  match n with
  | NavigableString s => s
  | Tag _ cs =>
      (fix texts (l : list node) : string :=
         match l with
         | [] => ""
         | c :: r => (get_text c ++ texts r)%string
         end) cs
  end.

Definition has_name (names : list string) (n : node) : bool :=
  match n with
  | NavigableString _ => false
  | Tag nm _ => existsb (String.eqb nm) names
  end.

(** [node.find_all(names)]: the tags below the node that bear one of
    the names, in document order (a tag before the tags inside it). *)
Fixpoint find_all (names : list string) (n : node) : list node :=
  match n with
  | NavigableString _ => []
  | Tag _ cs =>
      (fix descend (l : list node) : list node :=
         match l with
         | [] => []
         | c :: r =>
             (if has_name names c then [c] else [])
               ++ find_all names c ++ descend r
         end) cs
  end.

End Soup.

(* ================================================================== *)
(** ** [CrossFitWODScraper._extract_workout_content] *)

Module Scraper.
Import Py Re Soup.

(** The dict [content] of lines 115-124; its eight keys are fixed. *)
Record content : Type := mk_content {
  title : string;
  description : string;
  movements : list string;
  scaling : string;
  stimulus : string;
  is_named_workout : bool;
  is_hero_workout : bool;
  is_rest_day : bool
}.

Definition rest_day_description : string :=
  "Rest Day - Recovery and mobility work recommended".

(** [any(phrase in text for phrase in phrases)] *)
Definition any_in (phrases : list string) (text : string) : bool :=
  any (fun phrase => str_in phrase text) phrases.

(** *** Title candidates (lines 147-192) *)

Definition skip_phrases : list string :=
  ["watch now"; "are live"; "shop"; "buy"; "sale"; "click here"; "subscribe"].

Definition title_keywords : list string := ["games"; "hero"; "benchmark"].

Definition head_char (s : string) : ascii :=
  match s with
  | String c _ => c
  | "" => zero
  end.

Definition tail (s : string) : string := drop 1 s.

(** line 153 *)
Definition bold_length_ok (text : string) : bool :=
  negb (text =? "") && (5 <? String.length text)%nat && (String.length text <=? 50)%nat.

(** line 165 *)
Definition looks_uppercase (text : string) : bool :=
  isupper text
  || (char_isupper (head_char text) && negb (any_char char_islower (tail text))).

(** One turn of the loop over the strong and b tags (lines 151-166). *)
Definition bold_step (potential_titles : list string) (bold : node) : list string :=
  let text := strip (get_text bold) in
  if bold_length_ok text then
    if any_in skip_phrases (lower text) then potential_titles
    else if search event_re (lower text) then text :: potential_titles
    else if any_in title_keywords (lower text) then potential_titles ++ [text]
    else if looks_uppercase text then potential_titles ++ [text]
    else potential_titles
  else potential_titles.

Definition bold_titles (soup : node) : list string :=
  fold_left bold_step (find_all ["strong"; "b"] soup) [].

Definition skip_patterns : list string :=
  ["workout of the day"; "wod"; "scaling"; "stimulus"; "strategy";
   "coaching"; "resources"; "post"; "compare"; "intermediate option";
   "beginner option"; "comments"].

(** One turn of the loop over the headings (lines 169-183). *)
Definition heading_step (potential_titles : list string) (heading : node) : list string :=
  let text := strip (get_text heading) in
  if negb (text =? "") && (String.length text <=? 50)%nat
     && negb (any_in skip_patterns (lower text)) then
    if isupper text || istitle text || capitalized_word text
       || str_in "games" (lower text) || str_in "event" (lower text)
    then potential_titles ++ [text]
    else potential_titles
  else potential_titles.

Definition potential_titles (soup : node) : list string :=
  fold_left heading_step (find_all ["h1"; "h2"; "h3"] soup) (bold_titles soup).

(** *** Workout body (lines 194-234) *)

Definition start_indicators : list string :=
  ["for time:"; "amrap"; "emom"; "rounds for time:"; "complete:"].

Definition section_markers : list string :=
  ["stimulus"; "scaling"; "intermediate option"; "beginner option";
   "coaching"; "resources"; "comments"; "post time"].

(** The loop of lines 203-231 from some line on, with the values of
    [found_workout] and [workout_lines] on entry.  The variable
    [workout_title_candidate] of lines 210-216 is assigned and never
    read, so it is left out. *)
Fixpoint workout_loop (found_workout : bool) (workout_lines : list string)
         (lines : list string) : list string :=
  match lines with
  | [] => workout_lines
  | raw :: rest =>
      let line := strip raw in
      if (line =? "") || str_in "commented on:" (lower line)
      then workout_loop found_workout workout_lines rest
      else
        let found_workout :=
          if any_in start_indicators (lower line) then true else found_workout in
        if found_workout then
          if any_in section_markers (lower line) then workout_lines
          else if negb (line =? "") && negb (startswith line "**")
          then workout_loop found_workout (workout_lines ++ [line]) rest
          else workout_loop found_workout workout_lines rest
        else workout_loop found_workout workout_lines rest
  end.

Definition collect_workout_lines (lines : list string) : list string :=
  workout_loop false [] lines.

(** lines 233-234 *)
Definition description_of (workout_lines : list string) : string :=
  match workout_lines with
  | [] => ""
  | _ => join nl (firstn 10 workout_lines)
  end.

(** *** Movements (lines 236-252) *)

(** lines 246-250, for one match of the pattern *)
Definition movement_of (m : string * string) : list string :=
  let movement := (fst m ++ " " ++ strip (snd m))%string in
  if (3 <? String.length movement)%nat && (String.length movement <? 50)%nat
  then [movement] else [].

Definition found_movements (workout_lines : list string) : list string :=
  flat_map (fun line => flat_map movement_of (findall line)) workout_lines.

(** line 252 *)
Definition movements_of (workout_lines : list string) : list string :=
  firstn 8 (dict_fromkeys (found_movements workout_lines)).

(** *** Sections (lines 254-317) *)

(** The inner loops of lines 263-271, 281-289 and 305-313, which differ
    in their markers only: the lines of the window that are kept, up to
    the first one with a marker. *)
Fixpoint collect_section (markers : list string) (window : list string) : list string :=
  match window with
  | [] => []
  | raw :: rest =>
      let next_line := strip raw in
      if next_line =? "" then collect_section markers rest
      else if any_in markers (lower next_line) then []
      else if negb (next_line =? "") && negb (startswith next_line "**")
      then next_line :: collect_section markers rest
      else collect_section markers rest
  end.

(** [lines[j] for j in range(i+1, min(i+10, len(lines)))], given the
    lines after line [i]. *)
Definition window (after : list string) : list string := firstn 9 after.

Definition scaling_markers : list string :=
  ["intermediate option:"; "beginner option:"; "coaching"; "resources"; "stimulus"].

(** Method 1 (lines 258-272): the first line with "scaling:". *)
Fixpoint scaling_section (lines : list string) : list string :=
  match lines with
  | [] => []
  | line :: rest =>
      if str_in "scaling:" (lower line)
      then collect_section scaling_markers (window rest)
      else scaling_section rest
  end.

Definition option_markers : list string :=
  ["option:"; "coaching"; "resources"; "stimulus"; "comments"].

(** lines 278-289: the header line as it is, then the kept lines. *)
Definition option_text (line : string) (after : list string) : list string :=
  line :: collect_section option_markers (window after).

(** The inner loop of Method 2 (lines 276-292) for one option type. *)
Fixpoint option_blocks (option_type : string) (lines : list string) : list string :=
  match lines with
  | [] => []
  | line :: rest =>
      (if str_in option_type (lower line) && (1 <? length (option_text line rest))%nat
       then [join nl (option_text line rest)] else [])
        ++ option_blocks option_type rest
  end.

Definition option_types : list string :=
  ["intermediate option:"; "beginner option:"].

Definition scaling_parts (lines : list string) : list string :=
  scaling_section lines
    ++ flat_map (fun option_type => option_blocks option_type lines) option_types.

(** lines 294-295 *)
Definition scaling_of (lines : list string) : string :=
  match scaling_parts lines with
  | [] => ""
  | parts => join (nl ++ nl) parts
  end.

Definition stimulus_markers : list string :=
  ["scaling:"; "intermediate option:"; "beginner option:"; "coaching"; "resources"].

(** lines 301-314 *)
Fixpoint stimulus_lines (lines : list string) : list string :=
  match lines with
  | [] => []
  | line :: rest =>
      if str_in "stimulus and strategy:" (lower line) || str_in "stimulus:" (lower line)
      then collect_section stimulus_markers (window rest)
      else stimulus_lines rest
  end.

(** lines 316-317 *)
Definition stimulus_of (lines : list string) : string :=
  match stimulus_lines lines with
  | [] => ""
  | ls => join " " ls
  end.

(** *** Hero workouts (lines 319-332) *)

Definition hero_indicators : list string :=
  ["lt."; "lieutenant"; "sgt."; "sergeant"; "cpl."; "corporal";
   "pfc."; "private"; "captain"; "major"; "colonel"].

Definition hero_phrases : list string :=
  ["fallen"; "killed in action"; "kia"; "memorial"; "died";
   "gave his life"; "gave her life"].

Definition has_military_rank (page_text : string) : bool :=
  any_in hero_indicators page_text.

Definition has_memorial_language (page_text : string) : bool :=
  any_in hero_phrases page_text.

Definition is_reference_only (page_text : string) : bool :=
  str_in "reminiscent of a hero workout" page_text
  || str_in "similar to" page_text
  || str_in "like the hero workout" page_text.

Definition hero (page_text : string) : bool :=
  has_military_rank page_text && has_memorial_language page_text
  && negb (is_reference_only page_text).

(** *** The method *)

Definition page_text (soup : node) : string := lower (get_text soup).

Definition lines_of (soup : node) : list string := split_nl (get_text soup).

Definition extract_workout_content (soup : node) (date_str : string) : content :=
  if str_in "rest day" (page_text soup) then
    (* lines 142-145 *)
    mk_content date_str rest_day_description [] "" "" false false true
  else
    let titles := potential_titles soup in
    let lines := lines_of soup in
    let workout_lines := collect_workout_lines lines in
    let is_hero := hero (page_text soup) in
    mk_content
      (match titles with t :: _ => t | [] => date_str end)
      (description_of workout_lines)
      (movements_of workout_lines)
      (scaling_of lines)
      (stimulus_of lines)
      (match titles with _ :: _ => true | [] => false end || is_hero)
      is_hero
      false.

End Scraper.

(* ================================================================== *)
(** ** Dates: [strftime] and [strptime]

    A [datetime.date] by its three numbers.  [strptime] is the matching
    of CPython's [_strptime]: the format "%y%m%d" is the pattern
    [(?P<y>\d\d)(?P<m>1[0-2]|0[1-9]|[1-9])(?P<d>3[0-1]|[1-2]\d|0[1-9]|[1-9]| [1-9])],
    matched at the start of the text, which it has to use up. *)

Module Dates.
Import Py Re.

Record date : Type := mk_date { year : nat; month : nat; day : nat }.

Definition is_leap (y : nat) : bool :=
  ((y mod 4 =? 0) && negb (y mod 100 =? 0) || (y mod 400 =? 0))%nat.

Definition days_in_month (y m : nat) : nat :=
  match m with
  | 1 | 3 | 5 | 7 | 8 | 10 | 12 => 31
  | 4 | 6 | 9 | 11 => 30
  | 2 => if is_leap y then 29 else 28
  | _ => 0
  end.

(** The dates that [datetime.date] holds. *)
Definition valid_date (d : date) : bool :=
  ((1 <=? year d) && (year d <=? 9999)
   && (1 <=? month d) && (month d <=? 12)
   && (1 <=? day d) && (day d <=? days_in_month (year d) (month d)))%nat.

Definition digit (n : nat) : ascii := ascii_of_nat (48 + n mod 10).

Definition two_digits (n : nat) : string :=
  String (digit (n / 10)) (String (digit n) "").

Definition four_digits (n : nat) : string :=
  String (digit (n / 1000)) (String (digit (n / 100)) (two_digits n)).

(** [d.strftime("%y%m%d")] *)
Definition strftime_yymmdd (d : date) : string :=
  (two_digits (year d mod 100) ++ two_digits (month d) ++ two_digits (day d))%string.

Definition month_name (m : nat) : string :=
  match m with
  | 1 => "January" | 2 => "February" | 3 => "March" | 4 => "April"
  | 5 => "May" | 6 => "June" | 7 => "July" | 8 => "August"
  | 9 => "September" | 10 => "October" | 11 => "November"
  | 12 => "December" | _ => ""
  end.

(** [d.strftime("%B %d, %Y")], in the C locale, for a year of four
    digits. *)
Definition strftime_long (d : date) : string :=
  (month_name (month d) ++ " " ++ two_digits (day d) ++ ", "
     ++ four_digits (year d))%string.

(** [int(s)] for a group of the pattern: digits, after a space at most. *)
Fixpoint int_from (acc : nat) (s : string) : nat :=
  match s with
  | "" => acc
  | String c r =>
      if char_isdigit c then int_from (10 * acc + (nat_of_ascii c - 48)) r
      else int_from acc r
  end.

Definition int (s : string) : nat := int_from 0 s.

Definition month_re {A : Type} : @matcher A :=
  alt (seq (lit "1") (one (between 48 50)))
      (alt (seq (lit "0") (one (between 49 57)))
           (one (between 49 57))).

Definition day_re {A : Type} : @matcher A :=
  alt (seq (lit "3") (one (between 48 49)))
      (alt (seq (one (between 49 50)) (one char_isdigit))
           (alt (seq (lit "0") (one (between 49 57)))
                (alt (one (between 49 57))
                     (seq (lit " ") (one (between 49 57)))))).

(** The match of the pattern at the start of [s]: the three groups and
    the text that remains. *)
Definition yymmdd_re (s : string) : option (string * string * string * string) :=
  seq (one char_isdigit) (one char_isdigit) s (fun s1 =>
  month_re s1 (fun s2 =>
  day_re s2 (fun s3 =>
  Some (take (String.length s - String.length s1) s,
        take (String.length s1 - String.length s2) s1,
        take (String.length s2 - String.length s3) s2,
        s3)))).

(** [datetime.datetime.strptime(s, "%y%m%d").date()], [None] where it
    raises [ValueError]. *)
Definition strptime_yymmdd (s : string) : option date :=
  match yymmdd_re s with
  | None => None
  | Some (y, m, d, rest) =>
      if rest =? "" then
        let year := if (int y <=? 68)%nat then 2000 + int y else 1900 + int y in
        let found := mk_date year (int m) (int d) in
        if valid_date found then Some found else None
      else None
  end.

End Dates.

(* ================================================================== *)
(** ** [WorkoutData] and its CSV row *)

(** The dict that [to_csv_row] returns; its twelve keys are the
    [fieldnames] of [CSVLogger], in that order. *)
Module Row.

Record t : Type := mk {
  date_code : string;
  date : string;
  title : string;
  is_named_workout : string;
  is_hero_workout : string;
  is_rest_day : string;
  description : string;
  movements : string;
  scaling : string;
  stimulus : string;
  scraped_at : string;
  url : string
}.

End Row.

Module WorkoutData.
Import Py.

Record t : Type := mk {
  title : string;
  description : string;
  movements : list string;
  scaling : string;
  stimulus : string;
  date : string;
  date_code : string;
  is_named_workout : bool;
  is_hero_workout : bool;
  is_rest_day : bool;
  scraped_at : string
}.

(** [str(b)] *)
Definition str_of_bool (b : bool) : string := if b then "True" else "False".

Definition carriage_return : ascii := ascii_of_N 13.

(** [s.replace(old, new)] for an [old] of one character. *)
Fixpoint replace_char (old : ascii) (new : string) (s : string) : string :=
  match s with
  | "" => ""
  | String c r =>
      if Ascii.eqb c old then (new ++ replace_char old new r)%string
      else String c (replace_char old new r)
  end.

(** [s.replace('\n', ' | ').replace('\r', '')] (lines 49, 51, 52) *)
Definition flatten (s : string) : string :=
  replace_char carriage_return "" (replace_char newline " | " s).

(** lines 40-55 *)
Definition to_csv_row (self : t) : Row.t :=
  Row.mk
    (date_code self)
    (date self)
    (title self)
    (str_of_bool (is_named_workout self))
    (str_of_bool (is_hero_workout self))
    (str_of_bool (is_rest_day self))
    (flatten (description self))
    (match movements self with [] => "" | ms => join " | " ms end)
    (flatten (scaling self))
    (flatten (stimulus self))
    (scraped_at self)
    ("https://www.crossfit.com/" ++ date_code self).

End WorkoutData.

(* ================================================================== *)
(** ** [CSVLogger]

    The CSV file is modelled by its data rows, as they were written,
    below the header that [_ensure_csv_exists] writes.  [csv.DictWriter]
    and [csv.DictReader] are taken to write the twelve fields of a row
    and to read them back; the file is read in text mode without
    [newline=''], so in every field that is read "\r\n" and "\r" have
    become "\n".  A file that is missing or has another header, and the
    I/O errors that [log_workout] answers with [False], are outside this
    model. *)

Module CSVLogger.
Import Py.

(** What text mode makes of a text that is read: [after_cr] says that
    the character before was a carriage return. *)
Fixpoint universal_newlines_from (after_cr : bool) (s : string) : string :=
  match s with
  | "" => ""
  | String c r =>
      if Ascii.eqb c WorkoutData.carriage_return
      then String newline (universal_newlines_from true r)
      else if Ascii.eqb c newline
      then if after_cr then universal_newlines_from false r
           else String newline (universal_newlines_from false r)
      else String c (universal_newlines_from false r)
  end.

Definition universal_newlines (s : string) : string :=
  universal_newlines_from false s.

(** A row as [csv.DictReader] gives it. *)
Definition read_row (row : Row.t) : Row.t :=
  Row.mk
    (universal_newlines (Row.date_code row))
    (universal_newlines (Row.date row))
    (universal_newlines (Row.title row))
    (universal_newlines (Row.is_named_workout row))
    (universal_newlines (Row.is_hero_workout row))
    (universal_newlines (Row.is_rest_day row))
    (universal_newlines (Row.description row))
    (universal_newlines (Row.movements row))
    (universal_newlines (Row.scaling row))
    (universal_newlines (Row.stimulus row))
    (universal_newlines (Row.scraped_at row))
    (universal_newlines (Row.url row)).

(** The rows of the file, as they were written. *)
Definition file : Type := list Row.t.

(** [csv.DictReader(csvfile)] *)
Definition reader (csvfile : file) : list Row.t := map read_row csvfile.

(** [workout_exists] (lines 355-369) *)
Definition workout_exists (csvfile : file) (date_code : string) : bool :=
  existsb (fun row => Row.date_code row =? date_code) (reader csvfile).

(** [_update_existing_workout] (lines 392-406): the rows that were read,
    those of the date code replaced, written anew. *)
Definition update_existing_workout (csvfile : file) (workout : WorkoutData.t)
  : file :=
  map (fun row =>
         if Row.date_code row =? WorkoutData.date_code workout
         then WorkoutData.to_csv_row workout
         else row)
      (reader csvfile).

(** [log_workout] (lines 371-390): the file afterwards and the answer. *)
Definition log_workout (csvfile : file) (workout : WorkoutData.t)
           (overwrite : bool) : file * bool :=
  if negb overwrite && workout_exists csvfile (WorkoutData.date_code workout)
  then (csvfile, true)
  else if overwrite && workout_exists csvfile (WorkoutData.date_code workout)
  then (update_existing_workout csvfile workout, true)
  else (csvfile ++ [WorkoutData.to_csv_row workout], true).

(** The dict [stats] of lines 413-419. *)
Record stats : Type := mk_stats {
  total_workouts : nat;
  named_workouts : nat;
  hero_workouts : nat;
  rest_days : nat;
  most_recent : option string
}.

(** One turn of the loop of lines 425-437. *)
Definition count_row (st : stats) (row : Row.t) : stats :=
  mk_stats
    (total_workouts st + 1)
    (if Row.is_named_workout row =? "True"
     then named_workouts st + 1 else named_workouts st)
    (if Row.is_hero_workout row =? "True"
     then hero_workouts st + 1 else hero_workouts st)
    (if Row.is_rest_day row =? "True"
     then rest_days st + 1 else rest_days st)
    (Some (Row.title row)).

(** [get_workout_stats] (lines 408-442) *)
Definition get_workout_stats (csvfile : file) : stats :=
  fold_left count_row (reader csvfile) (mk_stats 0 0 0 0 None).

End CSVLogger.

(* ================================================================== *)
(** ** The other methods of [CrossFitWODScraper] *)

Module CrossFitWODScraper.
Import Py Soup Scraper Dates.

(** [get_workout_url] (lines 66-72); [today] is what
    [datetime.date.today()] gives when it is asked. *)
Definition get_workout_url (today : date) (date : option date) : string :=
  let date := match date with Some d => d | None => today end in
  let date_str := strftime_yymmdd date in
  ("https://www.crossfit.com/" ++ date_str)%string.


(** [parse_workout_data] (lines 88-111), from the tree that
    [BeautifulSoup] built and the time [now] of line 110; [None] where
    [strptime] raises [ValueError]. *)
Definition parse_workout_data (soup : node) (date_str now : string)
  : option WorkoutData.t :=
  match strptime_yymmdd date_str with
  | None => None
  | Some date_obj =>
      let formatted_date := strftime_long date_obj in
      let workout_content := extract_workout_content soup date_str in
      Some (WorkoutData.mk
              (title workout_content)
              (description workout_content)
              (movements workout_content)
              (scaling workout_content)
              (stimulus workout_content)
              formatted_date
              date_str
              (is_named_workout workout_content)
              (is_hero_workout workout_content)
              (is_rest_day workout_content)
              now)
  end.

End CrossFitWODScraper.

Import Py Re Soup Scraper.

(* ================================================================== *)
(** ** Vocabulary of the properties *)

(** [sub] occurs in [s]. *)
Definition occurs (sub s : string) : Prop :=
  exists pre post, s = (pre ++ sub ++ post)%string.

(** [sub] occurs in [s] in some letter case. *)
Definition occurs_any_case (sub s : string) : Prop :=
  exists pre mid post, s = (pre ++ mid ++ post)%string /\ lower mid = sub.

(** The texts of the strong and b tags, trimmed, in document order. *)
Definition bold_texts (soup : node) : list string :=
  map (fun bold => strip (get_text bold)) (find_all ["strong"; "b"] soup).

(** What the loop behind [dict.fromkeys] keeps true: after the items
    [seen], the keys are the items seen, in the order of their first
    places in [seen]. *)
Definition keys_of (seen keys : list string) : Prop :=
  (forall x, In x keys <-> In x seen)
  /\ StronglySorted lt (map (fun k => index_of k seen) keys).

(** [s] has no newline in it. *)
Definition one_line (s : string) : Prop :=
  any_char (fun c => Ascii.eqb c newline) s = false.

(** The loop looks at a trimmed line unless it is empty or holds
    "commented on:" (line 207). *)
Definition looked_at (line : string) : bool :=
  negb (line =? "") && negb (str_in "commented on:" (lower line)).

Definition is_start (line : string) : bool :=
  any_in start_indicators (lower line).

Definition is_terminator (line : string) : bool :=
  any_in section_markers (lower line).

Definition is_bold_marked (line : string) : bool := startswith line "**".

(** The list from the first item with [p] on, that item included. *)
Fixpoint from_first {A : Type} (p : A -> bool) (l : list A) : list A :=
  match l with
  | [] => []
  | x :: r => if p x then x :: r else from_first p r
  end.

(** The list up to the first item with [p], that item excluded. *)
Fixpoint up_to_first {A : Type} (p : A -> bool) (l : list A) : list A :=
  match l with
  | [] => []
  | x :: r => if p x then [] else x :: up_to_first p r
  end.

(** The body in the words of the specification, with the lines that hold
    "commented on:" passed over as the empty ones are: of the trimmed
    lines that are looked at, those from the first start indicator on, up
    to the first terminator, without the lines that begin with "**". *)
Definition workout_body (lines : list string) : list string :=
  filter (fun line => negb (is_bold_marked line))
    (up_to_first is_terminator
       (from_first is_start (filter looked_at (map strip lines)))).

(** The filter a bold text goes through (lines 153-157). *)
Definition bold_candidate (text : string) : bool :=
  bold_length_ok text && negb (any_in skip_phrases (lower text)).

(** The test of line 160. *)
Definition is_event_title (text : string) : bool :=
  search event_re (lower text).

(** The bold texts that the loop puts in front. *)
Definition events_in (bolds : list node) : list string :=
  filter (fun text => bold_candidate text && is_event_title text)
         (map (fun bold => strip (get_text bold)) bolds).

Definition event_candidates (soup : node) : list string :=
  events_in (find_all ["strong"; "b"] soup).

(** The block of an option line: the line and the lines kept after it,
    joined with newlines. *)
Definition option_block (line : string) (after : list string) : string :=
  join nl (option_text line after).

(** The paragraphs of a text that [parts] are, one blank line between
    two of them. *)
Definition paragraphs (parts : list string) : string := join (nl ++ nl) parts.

(** A matcher hands to its continuation a text that is not longer than
    the one it was given. *)
Definition shortens {A : Type} (m : @matcher A) : Prop :=
  forall s k x,
    m s k = Some x ->
    exists r, k r = Some x /\ String.length r <= String.length s.

(** The bold texts that the loop appends: they pass the filter, are no
    event titles, and hold a title keyword or look uppercase (lines
    163-166). *)
Definition appended_candidate (text : string) : bool :=
  bold_candidate text && negb (is_event_title text)
  && (any_in title_keywords (lower text) || looks_uppercase text).

(** The texts of the h1, h2 and h3 tags, trimmed, in document order. *)
Definition heading_texts (soup : node) : list string :=
  map (fun heading => strip (get_text heading)) (find_all ["h1"; "h2"; "h3"] soup).

(** The tests a heading goes through (lines 178-182). *)
Definition heading_candidate (text : string) : bool :=
  negb (text =? "") && (String.length text <=? 50)%nat
  && negb (any_in skip_patterns (lower text))
  && (isupper text || istitle text || capitalized_word text
      || str_in "games" (lower text) || str_in "event" (lower text)).

(** The title candidates by rank: the event titles, the last one in the
    document first; then the other bold candidates in document order;
    then the headings in document order. *)
Definition ranked_titles (soup : node) : list string :=
  rev (event_candidates soup)
    ++ filter appended_candidate (bold_texts soup)
    ++ filter heading_candidate (heading_texts soup).

(** [s] has no whitespace at either end. *)
Definition trimmed (s : string) : Prop := strip s = s.

(** A line opens the stimulus section (line 302). *)
Definition stimulus_header (line : string) : bool :=
  str_in "stimulus and strategy:" (lower line) || str_in "stimulus:" (lower line).

(** Every character of [s] is in the class [p]. *)
Definition all_chars (p : ascii -> bool) (s : string) : Prop :=
  any_char (fun c => negb (p c)) s = false.

(** The years that a two-digit year stands for. *)
Definition in_window (d : Dates.date) : Prop :=
  1969 <= Dates.year d <= 2068.

(** Two matchers of the same pattern, one at each type of result, give
    results that [f] relates when their continuations do. *)
Definition related {A B : Type} (f : A -> B)
           (mA : @Re.matcher A) (mB : @Re.matcher B) : Prop :=
  forall s kA kB,
    (forall r, kB r = option_map f (kA r)) ->
    mB s kB = option_map f (mA s kA).

(** The month and day groups of the date pattern on [r], and the text
    that remains. *)
Definition month_day_groups (r : string) : option (string * string * string) :=
  Dates.month_re r (fun s2 =>
  Dates.day_re s2 (fun s3 =>
  Some (Py.take (String.length r - String.length s2) r,
        Py.take (String.length s2 - String.length s3) s2,
        s3))).

(** The groups found in the two digits of [m] and the two of [dd] are
    these digits, with nothing left. *)
Definition month_day_found (m dd : nat) : bool :=
  match month_day_groups (Dates.two_digits m ++ Dates.two_digits dd) with
  | Some (gm, gd, rest) =>
      (gm =? Dates.two_digits m) && (gd =? Dates.two_digits dd) && (rest =? "")
  | None => false
  end.

(** [s] has no carriage return in it. *)
Definition no_return (s : string) : Prop :=
  any_char (fun c => Ascii.eqb c WorkoutData.carriage_return) s = false.


(** A row that this program wrote: the row of a workout that
    [parse_workout_data] made. *)
Definition logged_row (row : Row.t) : Prop :=
  exists soup date_str now workout,
    CrossFitWODScraper.parse_workout_data soup date_str now = Some workout
    /\ row = WorkoutData.to_csv_row workout.

(* ================================================================== *)
(** ** Pages used as witnesses and counterexamples *)

(** The root of a parsed document. *)
Definition document (contents : list node) : node := Tag "[document]" contents.

(** A rest-day page that also carries a bold title, a workout and the
    signals of a hero workout. *)
Definition rest_day_page : node :=
  document
    [Tag "strong" [NavigableString "MEMORIAL MURPH"];
     NavigableString
       (nl ++ "Today is a REST Day" ++ nl ++ "For time:" ++ nl
           ++ "21 Thrusters" ++ nl
           ++ "In memory of Lt. Michael Murphy, killed in action")].

(** A hero workout: rank and memorial language, no comparison. *)
Definition hero_page : node :=
  document
    [NavigableString
       ("For time:" ++ nl ++ "1-mile Run" ++ nl ++ "100 Pull-ups" ++ nl
          ++ "In memory of Lt. Michael Murphy, killed in action")].

(** The regression case of the specification. *)
Definition reference_page : node :=
  document
    [NavigableString
       "This workout is similar to a hero workout honoring Sgt. Smith, killed in action"].

(** A rest-day page with nothing else on it. *)
Definition bare_rest_day_page : node :=
  document [NavigableString ("Friday" ++ nl ++ "Rest Day")].

(** A page without a workout on it. *)
Definition no_workout_page : node :=
  document [NavigableString ("Mobility flow" ++ nl ++ "Stretch and breathe")].

(** A Games page: an uppercase bold text, then an event title. *)
Definition games_page : node :=
  document
    [Tag "h1" [NavigableString "FRIDAY"];
     Tag "p" [Tag "strong" [NavigableString "CHAMPIONSHIP WEEK"]];
     Tag "p" [Tag "b" [NavigableString " 2025 CrossFit Games Event 3 "]];
     NavigableString (nl ++ "For time:" ++ nl ++ "400-meter Run")].

Definition fifty_letters : string :=
  "ABCDEFGHIJKLMNOPQRSTUVWXYABCDEFGHIJKLMNOPQRSTUVWXY".

Definition fifty_letters_page : node :=
  document [Tag "b" [NavigableString fifty_letters]].

(** A rest-day page with an event title and an uppercase text in bold. *)
Definition rest_day_event_page : node :=
  document
    [Tag "b" [NavigableString "ACTIVE REST DAY"];
     Tag "b" [NavigableString "Event 12 Recap"];
     NavigableString (nl ++ "Enjoy the day off.")].

(** A page with the beginner option above the intermediate one. *)
Definition beginner_first_page : node :=
  document
    [NavigableString
       ("Beginner Option:" ++ nl ++ "10 Air Squats" ++ nl
          ++ "Intermediate Option:" ++ nl ++ "20 Air Squats")].

(** A page with a scaling section and both options. *)
Definition scaled_page : node :=
  document
    [NavigableString
       ("For time:" ++ nl ++ "21 Thrusters" ++ nl
          ++ "Scaling:" ++ nl ++ "Reduce the load." ++ nl
          ++ "Intermediate Option:" ++ nl ++ " 15 Thrusters" ++ nl
          ++ "Beginner Option:" ++ nl ++ " 9 Thrusters" ++ nl
          ++ "Coaching cues:" ++ nl ++ "Elbows high.")].

(** A page whose only title candidates are headings. *)
Definition heading_page : node :=
  document
    [Tag "h1" [NavigableString "Workout of the Day"];
     Tag "h2" [NavigableString " Fran "];
     Tag "h3" [NavigableString "Scaling"];
     NavigableString (nl ++ "For time:" ++ nl ++ "21 Thrusters")].

(** A Games workout with a comma between two movements. *)
Definition scaled_games_page : node :=
  document
    [Tag "p" [Tag "b" [NavigableString "2025 CrossFit Games Event 3"]];
     NavigableString
       (nl ++ "5 rounds for time:" ++ nl
           ++ "  1,000-meter row, 20 Pull-ups (kipping)" ++ nl
           ++ "Bob commented on: tough one" ++ nl
           ++ "**Rx**" ++ nl
           ++ "15 Thrusters" ++ nl
           ++ "Stimulus and Strategy: go" ++ nl
           ++ "Pace the row." ++ nl ++ nl
           ++ "Break the thrusters early." ++ nl
           ++ "Scaling: as needed" ++ nl
           ++ "Stimulus:" ++ nl ++ "Ignored.")].

(** Two workouts and a file that holds their rows. *)
Definition murph_workout : WorkoutData.t :=
  WorkoutData.mk "MEMORIAL MURPH" ("For time:" ++ nl ++ "1-mile Run")
    ["1-mile Run"] "" "" "May 26, 2025" "250526" true true false
    "2025-05-26T06:00:00".

Definition rest_workout : WorkoutData.t :=
  WorkoutData.mk "250704" "Rest Day - Recovery and mobility work recommended"
    [] "" "" "July 04, 2025" "250704" false false true
    "2025-07-04T06:00:00".

Definition fran_workout : WorkoutData.t :=
  WorkoutData.mk "FRAN" ("For time:" ++ nl ++ "21 Thrusters")
    ["21 Thrusters"] "" "" "July 04, 2025" "250704" true false false
    "2025-07-04T18:00:00".

Definition sample_log : CSVLogger.file :=
  [WorkoutData.to_csv_row murph_workout; WorkoutData.to_csv_row rest_workout].

(* ================================================================== *)
(** ** Facts on strings *)

Section StringFacts.

Lemma append_nil_r (s : string) : (s ++ "")%string = s.
Proof. induction s as [|c s IH]; simpl; congruence. Qed.

Lemma append_assoc (a b c : string) :
  ((a ++ b) ++ c)%string = (a ++ b ++ c)%string.
Proof. induction a as [|x a IH]; simpl; congruence. Qed.

Lemma length_append (a b : string) :
  String.length (a ++ b) = String.length a + String.length b.
Proof. induction a as [|x a IH]; simpl; congruence. Qed.

Lemma lower_append (a b : string) :
  lower (a ++ b) = (lower a ++ lower b)%string.
Proof. induction a as [|x a IH]; simpl; congruence. Qed.

Lemma prefix_spec (p s : string) :
  prefix p s = true <-> exists r, s = (p ++ r)%string.
Proof.
  revert s; induction p as [|c p IH]; intros s.
  - destruct s; simpl; split; eauto.
  - destruct s as [|d s]; simpl.
    + split; [discriminate | intros [r Hr]; discriminate].
    + destruct (ascii_dec c d) as [->|Hcd].
      * rewrite IH. split; intros [r Hr]; exists r; congruence.
      * split; [discriminate | intros [r Hr]; congruence].
Qed.

Lemma str_in_spec (sub s : string) :
  str_in sub s = true <-> occurs sub s.
Proof.
  unfold occurs. induction s as [|c s IH].
  - change (str_in sub "") with (prefix sub "" || false).
    rewrite orb_false_r, prefix_spec. split.
    + intros [r Hr]. exists "", r. exact Hr.
    + intros [pre [post H]]. destruct pre; [|discriminate].
      exists post. exact H.
  - change (str_in sub (String c s))
      with (prefix sub (String c s) || str_in sub s).
    rewrite orb_true_iff, prefix_spec, IH. split.
    + intros [[r Hr]|[pre [post H]]].
      * exists "", r. exact Hr.
      * exists (String c pre), post. simpl. congruence.
    + intros [pre [post H]]. destruct pre as [|d pre].
      * left. exists post. exact H.
      * right. exists pre, post. simpl in H. congruence.
Qed.

Lemma str_in_false (sub s : string) :
  str_in sub s = false <-> ~ occurs sub s.
Proof.
  rewrite <- str_in_spec. destruct (str_in sub s); split; congruence.
Qed.

Lemma occurs_any_case_lower (sub s : string) :
  occurs_any_case sub s -> occurs sub (lower s).
Proof.
  intros [pre [mid [post [-> <-]]]].
  exists (lower pre), (lower post). now rewrite !lower_append.
Qed.

Lemma any_in_spec (phrases : list string) (text : string) :
  any_in phrases text = true
  <-> exists phrase, In phrase phrases /\ occurs phrase text.
Proof.
  unfold any_in, any. rewrite existsb_exists.
  split; intros [x [Hx H]]; exists x; split; auto; now apply str_in_spec.
Qed.

End StringFacts.

(* ================================================================== *)
(** ** The rest-day branch *)

Lemma rest_day_branch (soup : node) (date_str : string) :
  str_in "rest day" (page_text soup) = true ->
  extract_workout_content soup date_str
  = mk_content date_str rest_day_description [] "" "" false false true.
Proof. intros H. unfold extract_workout_content. now rewrite H. Qed.

Lemma is_rest_day_spec (soup : node) (date_str : string) :
  is_rest_day (extract_workout_content soup date_str)
  = str_in "rest day" (page_text soup).
Proof.
  unfold extract_workout_content.
  now destruct (str_in "rest day" (page_text soup)).
Qed.

(** C1. Whenever the text of the page contains "rest day" in any letter
    case, the record has [is_rest_day] true, the fixed rest-day
    description, and empty movements, scaling and stimulus, whatever else
    the page holds. *)
Theorem C1_rest_day_record (soup : node) (date_str : string) :
  occurs_any_case "rest day" (get_text soup) ->
  let r := extract_workout_content soup date_str in
  is_rest_day r = true
  /\ description r = "Rest Day - Recovery and mobility work recommended"
  /\ movements r = []
  /\ scaling r = ""
  /\ stimulus r = "".
Proof.
  intros H r. subst r.
  rewrite rest_day_branch.
  - repeat split.
  - apply str_in_spec. now apply occurs_any_case_lower.
Qed.

Lemma C1_rest_day_record_witness :
  occurs_any_case "rest day" (get_text rest_day_page)
  /\ let r := extract_workout_content rest_day_page "250704" in
     is_rest_day r = true
     /\ description r = "Rest Day - Recovery and mobility work recommended"
     /\ movements r = []
     /\ scaling r = ""
     /\ stimulus r = "".
Proof.
  assert (H : occurs_any_case "rest day" (get_text rest_day_page)).
  { exists ("MEMORIAL MURPH" ++ nl ++ "Today is a ")%string, "REST Day",
      (nl ++ "For time:" ++ nl ++ "21 Thrusters" ++ nl
          ++ "In memory of Lt. Michael Murphy, killed in action")%string.
    split; reflexivity. }
  split; [exact H | exact (C1_rest_day_record rest_day_page "250704" H)].
Defined.

(* ================================================================== *)
(** ** Hero workouts *)

Lemma is_reference_only_spec (text : string) :
  is_reference_only text = true
  <-> exists phrase,
      In phrase ["reminiscent of a hero workout"; "similar to";
                 "like the hero workout"]
      /\ occurs phrase text.
Proof.
  rewrite <- any_in_spec. unfold is_reference_only, any_in, any. simpl.
  now rewrite orb_false_r, orb_assoc.
Qed.

Lemma is_hero_workout_spec (soup : node) (date_str : string) :
  is_rest_day (extract_workout_content soup date_str) = false ->
  is_hero_workout (extract_workout_content soup date_str)
  = hero (page_text soup).
Proof.
  unfold extract_workout_content.
  destruct (str_in "rest day" (page_text soup)); simpl; congruence.
Qed.

(** C2. On a page that is not a rest day, [is_hero_workout] is true
    exactly when the lowercase text of the page has a military-rank token,
    has a memorial phrase and has no reference-only phrase; so it is false
    as soon as a reference-only phrase is there, whatever the rank and
    memorial tokens. *)
Theorem C2_hero_classification (soup : node) (date_str : string) :
  is_rest_day (extract_workout_content soup date_str) = false ->
  let text := lower (get_text soup) in
  let rank :=
    exists token,
      In token ["lt."; "lieutenant"; "sgt."; "sergeant"; "cpl."; "corporal";
                "pfc."; "private"; "captain"; "major"; "colonel"]
      /\ occurs token text in
  let memorial :=
    exists phrase,
      In phrase ["fallen"; "killed in action"; "kia"; "memorial"; "died";
                 "gave his life"; "gave her life"]
      /\ occurs phrase text in
  let reference :=
    exists phrase,
      In phrase ["reminiscent of a hero workout"; "similar to";
                 "like the hero workout"]
      /\ occurs phrase text in
  (is_hero_workout (extract_workout_content soup date_str) = true
   <-> rank /\ memorial /\ ~ reference)
  /\ (reference ->
      is_hero_workout (extract_workout_content soup date_str) = false).
Proof.
  intros Hrest text rank memorial reference.
  rewrite (is_hero_workout_spec _ _ Hrest).
  change (page_text soup) with text. unfold hero.
  assert (Hrank : has_military_rank text = true <-> rank)
    by apply any_in_spec.
  assert (Hmem : has_memorial_language text = true <-> memorial)
    by apply any_in_spec.
  assert (Href : is_reference_only text = true <-> reference)
    by apply is_reference_only_spec.
  split.
  - rewrite !andb_true_iff, negb_true_iff, Hrank, Hmem.
    rewrite <- Href. destruct (is_reference_only text); intuition congruence.
  - intros H. apply Href in H. rewrite H. simpl. apply andb_false_r.
Qed.

Lemma C2_hero_classification_witness :
  is_rest_day (extract_workout_content reference_page "250704") = false
  /\ is_hero_workout (extract_workout_content reference_page "250704") = false.
Proof.
  split; [reflexivity|].
  apply (C2_hero_classification reference_page "250704" eq_refl).
  exists "similar to". split.
  - simpl; auto.
  - apply str_in_spec. reflexivity.
Defined.

Example hero_page_is_hero :
  is_hero_workout (extract_workout_content hero_page "250526") = true
  /\ is_named_workout (extract_workout_content hero_page "250526") = true
  /\ title (extract_workout_content hero_page "250526") = "250526".
Proof. repeat split. Qed.

(** C9. In every record [is_hero_workout] implies [is_named_workout]. *)
Theorem C9_hero_implies_named (soup : node) (date_str : string) :
  is_hero_workout (extract_workout_content soup date_str) = true ->
  is_named_workout (extract_workout_content soup date_str) = true.
Proof.
  unfold extract_workout_content.
  destruct (str_in "rest day" (page_text soup)); simpl.
  - discriminate.
  - intros ->. apply orb_true_r.
Qed.

Lemma C9_hero_implies_named_witness :
  is_hero_workout (extract_workout_content hero_page "250526") = true
  /\ is_named_workout (extract_workout_content hero_page "250526") = true.
Proof.
  split; [reflexivity|].
  apply (C9_hero_implies_named hero_page "250526"). reflexivity.
Defined.

(** C10. On a rest day the method returns before titles and hero signals
    are looked at: the title is the date code and neither
    [is_named_workout] nor [is_hero_workout] is set, whatever title
    candidates and hero signals the page has. *)
Theorem C10_rest_day_short_circuit (soup : node) (date_str : string) :
  is_rest_day (extract_workout_content soup date_str) = true ->
  title (extract_workout_content soup date_str) = date_str
  /\ is_named_workout (extract_workout_content soup date_str) = false
  /\ is_hero_workout (extract_workout_content soup date_str) = false.
Proof.
  rewrite is_rest_day_spec. intros H.
  rewrite (rest_day_branch _ _ H). repeat split.
Qed.

Example rest_day_page_signals :
  potential_titles rest_day_page = ["MEMORIAL MURPH"]
  /\ hero (page_text rest_day_page) = true.
Proof. split; reflexivity. Qed.

Lemma C10_rest_day_short_circuit_witness :
  is_rest_day (extract_workout_content rest_day_page "250704") = true
  /\ title (extract_workout_content rest_day_page "250704") = "250704"
  /\ is_named_workout (extract_workout_content rest_day_page "250704") = false
  /\ is_hero_workout (extract_workout_content rest_day_page "250704") = false.
Proof.
  split; [reflexivity|].
  apply (C10_rest_day_short_circuit rest_day_page "250704"). reflexivity.
Defined.

(* ================================================================== *)
(** ** Movements: the keys of [dict.fromkeys] *)

Section DictKeys.

Lemma existsb_eqb_In (k : string) (keys : list string) :
  existsb (String.eqb k) keys = true <-> In k keys.
Proof.
  rewrite existsb_exists. split.
  - intros [x [Hx Heq]]. apply String.eqb_eq in Heq. now subst.
  - intros H. exists k. split; [exact H | apply String.eqb_refl].
Qed.

Lemma index_of_lt (x : string) (xs : list string) :
  In x xs -> index_of x xs < length xs.
Proof.
  induction xs as [|y xs IH]; simpl; [tauto|].
  intros H. destruct (String.eqb_spec x y) as [->|Hne]; [lia|].
  destruct H as [H|H]; [congruence|]. apply IH in H. lia.
Qed.

Lemma index_of_app_l (x : string) (xs ys : list string) :
  In x xs -> index_of x (xs ++ ys) = index_of x xs.
Proof.
  induction xs as [|y xs IH]; simpl; [tauto|].
  intros H. destruct (String.eqb_spec x y) as [->|Hne]; [reflexivity|].
  destruct H as [H|H]; [congruence|]. now rewrite IH.
Qed.

Lemma index_of_app_r (x : string) (xs ys : list string) :
  ~ In x xs -> index_of x (xs ++ x :: ys) = length xs.
Proof.
  induction xs as [|y xs IH]; simpl; intros H.
  - now rewrite String.eqb_refl.
  - destruct (String.eqb_spec x y) as [->|Hne]; [tauto|].
    rewrite IH; tauto.
Qed.

Lemma StronglySorted_lt_snoc (l : list nat) (n : nat) :
  StronglySorted lt l -> Forall (fun m => m < n) l ->
  StronglySorted lt (l ++ [n]).
Proof.
  induction 1 as [|m l Hs IH Hm]; intros Hall; simpl.
  - repeat constructor.
  - inversion Hall; subst. constructor; [now apply IH|].
    apply Forall_app. split; [exact Hm | now repeat constructor].
Qed.

Lemma In_firstn {A : Type} (n : nat) (l : list A) (x : A) :
  In x (firstn n l) -> In x l.
Proof.
  revert l; induction n as [|n IH]; intros [|y l]; simpl; try tauto.
  intros [H|H]; [now left | right; now apply IH].
Qed.

Lemma StronglySorted_lt_firstn (n : nat) (l : list nat) :
  StronglySorted lt l -> StronglySorted lt (firstn n l).
Proof.
  intros H. revert n.
  induction H as [|m l Hs IH Hm]; intros [|n]; simpl; try constructor.
  - apply IH.
  - rewrite Forall_forall in *. intros x Hx. apply Hm.
    eapply In_firstn; eauto.
Qed.

Lemma StronglySorted_lt_NoDup (l : list nat) :
  StronglySorted lt l -> NoDup l.
Proof.
  induction 1 as [|m l Hs IH Hm]; constructor; [|exact IH].
  intros Hin. rewrite Forall_forall in Hm. apply Hm in Hin. lia.
Qed.

Lemma keys_of_step (seen keys : list string) (k : string) :
  keys_of seen keys -> keys_of (seen ++ [k]) (dict_insert_key keys k).
Proof.
  intros [Hin Hsort]. unfold dict_insert_key.
  assert (Hmap : map (fun x => index_of x (seen ++ [k])) keys
                 = map (fun x => index_of x seen) keys).
  { apply map_ext_in. intros x Hx. apply index_of_app_l. now apply Hin. }
  destruct (existsb (String.eqb k) keys) eqn:Hk.
  - apply existsb_eqb_In in Hk. split.
    + intros x. rewrite in_app_iff, <- Hin. simpl.
      intuition (subst; auto).
    + now rewrite Hmap.
  - assert (Hnot : ~ In k seen).
    { rewrite <- Hin, <- existsb_eqb_In. congruence. }
    split.
    + intros x. rewrite !in_app_iff, Hin. tauto.
    + rewrite map_app, Hmap. simpl. rewrite index_of_app_r by exact Hnot.
      apply StronglySorted_lt_snoc; [exact Hsort|].
      rewrite Forall_map, Forall_forall. intros x Hx.
      apply index_of_lt. now apply Hin.
Qed.

Lemma keys_of_fold (xs seen keys : list string) :
  keys_of seen keys ->
  keys_of (seen ++ xs) (fold_left dict_insert_key xs keys).
Proof.
  revert seen keys. induction xs as [|x xs IH]; intros seen keys H; simpl.
  - now rewrite app_nil_r.
  - replace (seen ++ x :: xs) with ((seen ++ [x]) ++ xs)
      by now rewrite <- app_assoc.
    apply IH. now apply keys_of_step.
Qed.

Lemma dict_fromkeys_keys (xs : list string) :
  keys_of xs (dict_fromkeys xs).
Proof.
  apply (keys_of_fold xs [] []). split; [tauto | constructor].
Qed.

Lemma movements_of_spec (workout_lines : list string) :
  let found := found_movements workout_lines in
  let ms := movements_of workout_lines in
  length ms <= 8
  /\ NoDup ms
  /\ incl ms found
  /\ StronglySorted lt (map (fun m => index_of m found) ms).
Proof.
  intros found ms. subst ms. unfold movements_of. fold found.
  destruct (dict_fromkeys_keys found) as [Hin Hsort].
  assert (Hs : StronglySorted lt
            (map (fun m => index_of m found)
                 (firstn 8 (dict_fromkeys found)))).
  { rewrite <- firstn_map. now apply StronglySorted_lt_firstn. }
  split; [apply firstn_le_length|].
  split; [|split; [|exact Hs]].
  - eapply NoDup_map_inv. apply StronglySorted_lt_NoDup, Hs.
  - intros x Hx. apply Hin. eapply In_firstn; eauto.
Qed.

End DictKeys.

(** C3. The movements of a record are at most 8, pairwise distinct, and
    stand in the order in which the movement strings found in the
    collected body lines occur there for the first time. *)
Theorem C3_movements_bounded_distinct_ordered (soup : node) (date_str : string) :
  let found := found_movements (collect_workout_lines (lines_of soup)) in
  let ms := movements (extract_workout_content soup date_str) in
  length ms <= 8
  /\ NoDup ms
  /\ incl ms found
  /\ StronglySorted lt (map (fun m => index_of m found) ms).
Proof.
  intros found ms. subst ms found. unfold extract_workout_content.
  destruct (str_in "rest day" (page_text soup)); simpl movements.
  - repeat split; try constructor; simpl; try lia. intros x [].
  - apply movements_of_spec.
Qed.

(* ================================================================== *)
(** ** Lines: [split], [strip] and [join] *)

Section Lines.

Lemma one_line_cons (c : ascii) (s : string) :
  one_line (String c s) <-> Ascii.eqb c newline = false /\ one_line s.
Proof. unfold one_line. simpl. apply orb_false_iff. Qed.

Lemma split_nl_not_nil (s : string) : split_nl s <> [].
Proof.
  induction s as [|c s IH]; simpl; [discriminate|].
  destruct (Ascii.eqb c newline); [discriminate|].
  destruct (split_nl s); [congruence | discriminate].
Qed.

Lemma split_nl_one_line (s : string) : Forall one_line (split_nl s).
Proof.
  induction s as [|c s IH]; simpl.
  - repeat constructor.
  - destruct (Ascii.eqb c newline) eqn:Hc.
    + constructor; [reflexivity | exact IH].
    + destruct (split_nl s) as [|h t].
      * repeat constructor. apply one_line_cons. now split.
      * inversion IH; subst. constructor; [|assumption].
        apply one_line_cons. now split.
Qed.

Lemma split_nl_of_one_line (s : string) : one_line s -> split_nl s = [s].
Proof.
  induction s as [|c s IH]; intros H; simpl; [reflexivity|].
  apply one_line_cons in H. destruct H as [Hc Hs].
  now rewrite Hc, (IH Hs).
Qed.

Lemma split_nl_append (s rest : string) :
  one_line s -> split_nl (s ++ nl ++ rest) = s :: split_nl rest.
Proof.
  induction s as [|c s IH]; intros H; simpl.
  - reflexivity.
  - apply one_line_cons in H. destruct H as [Hc Hs].
    rewrite Hc. simpl in IH. now rewrite (IH Hs).
Qed.

Lemma split_nl_join (parts : list string) :
  parts <> [] -> Forall one_line parts -> split_nl (join nl parts) = parts.
Proof.
  intros Hne Hall. induction Hall as [|x parts Hx Hall IH]; [congruence|].
  destruct parts as [|y parts].
  - simpl. now apply split_nl_of_one_line.
  - change (join nl (x :: y :: parts))
      with (x ++ nl ++ join nl (y :: parts))%string.
    rewrite split_nl_append by exact Hx.
    f_equal. apply IH. discriminate.
Qed.

Lemma lstrip_one_line (s : string) : one_line s -> one_line (lstrip s).
Proof.
  induction s as [|c s IH]; intros H; simpl; [exact H|].
  destruct (char_isspace c); [|exact H].
  apply IH. now apply one_line_cons in H.
Qed.

Lemma rstrip_one_line (s : string) : one_line s -> one_line (rstrip s).
Proof.
  induction s as [|c s IH]; intros H; simpl; [exact H|].
  apply one_line_cons in H. destruct H as [Hc Hs]. apply IH in Hs.
  destruct (rstrip s) as [|d r].
  - destruct (char_isspace c); [reflexivity|].
    apply one_line_cons. now split.
  - apply one_line_cons. now split.
Qed.

Lemma strip_one_line (s : string) : one_line s -> one_line (strip s).
Proof. intros H. now apply rstrip_one_line, lstrip_one_line. Qed.

(** [strip] cuts at both ends only. *)
Lemma lstrip_suffix (s : string) : exists a, s = (a ++ lstrip s)%string.
Proof.
  induction s as [|c s [a IH]]; simpl.
  - now exists "".
  - destruct (char_isspace c).
    + exists (String c a). simpl. congruence.
    + now exists "".
Qed.

Lemma rstrip_prefix (s : string) : exists b, s = (rstrip s ++ b)%string.
Proof.
  induction s as [|c s [b IH]]; simpl.
  - now exists "".
  - destruct (rstrip s) as [|d r].
    + destruct (char_isspace c).
      * now exists (String c s).
      * exists b. simpl. simpl in IH. congruence.
    + exists b. simpl. simpl in IH. congruence.
Qed.

Lemma strip_middle (s : string) :
  exists a b, s = (a ++ strip s ++ b)%string.
Proof.
  destruct (lstrip_suffix s) as [a Ha].
  destruct (rstrip_prefix (lstrip s)) as [b Hb].
  exists a, b. unfold strip. congruence.
Qed.

Lemma lower_append_inv (s a b : string) :
  lower s = (a ++ b)%string ->
  exists a' b', s = (a' ++ b')%string /\ lower a' = a /\ lower b' = b.
Proof.
  revert s; induction a as [|c a IH]; intros s H.
  - exists "", s. auto.
  - destruct s as [|d s]; [discriminate|].
    simpl in H. injection H as Hc Hs.
    destruct (IH _ Hs) as [a' [b' [-> [Ha Hb]]]].
    exists (String d a'), b'. simpl. repeat split; congruence.
Qed.

Lemma occurs_lower_any_case (sub s : string) :
  occurs sub (lower s) -> occurs_any_case sub s.
Proof.
  intros [pre [post H]].
  apply lower_append_inv in H. destruct H as [pre' [rest [-> [_ H]]]].
  apply lower_append_inv in H. destruct H as [mid [post' [-> [H _]]]].
  now exists pre', mid, post'.
Qed.

Lemma occurs_any_case_strip (sub s : string) :
  occurs_any_case sub (strip s) -> occurs_any_case sub s.
Proof.
  intros [pre [mid [post [H Hmid]]]].
  destruct (strip_middle s) as [a [b Hs]].
  exists (a ++ pre)%string, mid, (post ++ b)%string.
  split; [|exact Hmid].
  rewrite Hs at 1. rewrite H. now rewrite !append_assoc.
Qed.

(** A phrase list finds nothing in a line that holds none of its
    phrases in any letter case. *)
Lemma any_in_lower_strip_false (phrases : list string) (raw : string) :
  (forall phrase, In phrase phrases -> ~ occurs_any_case phrase raw) ->
  any_in phrases (lower (strip raw)) = false.
Proof.
  intros H. destruct (any_in phrases (lower (strip raw))) eqn:E; [|reflexivity].
  apply any_in_spec in E. destruct E as [phrase [Hin Hocc]].
  exfalso. apply (H phrase Hin).
  now apply occurs_any_case_strip, occurs_lower_any_case.
Qed.

Lemma any_in_lower_false (phrases : list string) (raw : string) :
  any_in phrases (lower raw) = false ->
  forall phrase, In phrase phrases -> ~ occurs_any_case phrase raw.
Proof.
  intros E phrase Hin Hocc.
  assert (any_in phrases (lower raw) = true); [|congruence].
  apply any_in_spec. exists phrase. split; [exact Hin|].
  now apply occurs_any_case_lower.
Qed.

End Lines.

(* ================================================================== *)
(** ** The workout body *)

Section WorkoutBody.

Lemma skip_test (line : string) :
  (line =? "") || str_in "commented on:" (lower line) = negb (looked_at line).
Proof.
  unfold looked_at.
  now destruct (line =? ""), (str_in "commented on:" (lower line)).
Qed.

Lemma looked_at_nonempty (line : string) :
  looked_at line = true -> negb (line =? "") = true.
Proof. unfold looked_at. now destruct (line =? ""). Qed.

(** Once the start has been found. *)
Lemma workout_loop_found (lines acc : list string) :
  workout_loop true acc lines
  = acc ++ filter (fun line => negb (is_bold_marked line))
             (up_to_first is_terminator (filter looked_at (map strip lines))).
Proof.
  revert acc. induction lines as [|raw lines IH]; intros acc.
  - simpl. now rewrite app_nil_r.
  - cbn [workout_loop map filter]. rewrite skip_test.
    destruct (looked_at (strip raw)) eqn:Hlook; cbn [negb]; [|apply IH].
    replace (if any_in start_indicators (lower (strip raw)) then true else true)
      with true by now destruct (any_in start_indicators (lower (strip raw))).
    cbn [up_to_first]. fold (is_terminator (strip raw)).
    destruct (is_terminator (strip raw)).
    + simpl. now rewrite app_nil_r.
    + rewrite (looked_at_nonempty _ Hlook). cbn [andb filter].
      fold (is_bold_marked (strip raw)).
      destruct (is_bold_marked (strip raw)); cbn [negb].
      * apply IH.
      * rewrite IH, <- app_assoc. reflexivity.
Qed.

(** From the top of the loop. *)
Lemma workout_loop_spec (lines acc : list string) :
  workout_loop false acc lines = acc ++ workout_body lines.
Proof.
  unfold workout_body. revert acc.
  induction lines as [|raw lines IH]; intros acc.
  - simpl. now rewrite app_nil_r.
  - cbn [workout_loop map filter]. rewrite skip_test.
    destruct (looked_at (strip raw)) eqn:Hlook; cbn [negb]; [|apply IH].
    cbn [from_first]. fold (is_start (strip raw)).
    destruct (is_start (strip raw)); [|apply IH].
    cbn [up_to_first]. fold (is_terminator (strip raw)).
    destruct (is_terminator (strip raw)).
    + simpl. now rewrite app_nil_r.
    + rewrite (looked_at_nonempty _ Hlook). cbn [andb filter].
      fold (is_bold_marked (strip raw)).
      destruct (is_bold_marked (strip raw)); cbn [negb].
      * apply workout_loop_found.
      * rewrite workout_loop_found, <- app_assoc. reflexivity.
Qed.

Lemma collect_workout_lines_spec (lines : list string) :
  collect_workout_lines lines = workout_body lines.
Proof. apply (workout_loop_spec lines []). Qed.

Lemma from_first_incl {A : Type} (p : A -> bool) (l : list A) :
  incl (from_first p l) l.
Proof.
  induction l as [|x l IH]; simpl; [apply incl_refl|].
  destruct (p x); [apply incl_refl | now apply incl_tl].
Qed.

Lemma up_to_first_incl {A : Type} (p : A -> bool) (l : list A) :
  incl (up_to_first p l) l.
Proof.
  induction l as [|x l IH]; simpl; [apply incl_refl|].
  destruct (p x); [intros y [] |].
  intros y [Hy|Hy]; [now left | right; now apply IH].
Qed.

Lemma from_first_none {A : Type} (p : A -> bool) (l : list A) :
  (forall x, In x l -> p x = false) -> from_first p l = [].
Proof.
  induction l as [|x l IH]; intros H; simpl; [reflexivity|].
  rewrite (H x) by now left. apply IH. intros y Hy. apply H. now right.
Qed.

Lemma workout_body_incl (lines : list string) :
  incl (workout_body lines) (map strip lines).
Proof.
  unfold workout_body. intros x Hx.
  apply filter_In in Hx. destruct Hx as [Hx _].
  apply up_to_first_incl, from_first_incl in Hx.
  apply filter_In in Hx. tauto.
Qed.

Lemma workout_body_one_line (s : string) :
  Forall one_line (workout_body (split_nl s)).
Proof.
  apply Forall_forall. intros x Hx.
  apply workout_body_incl, in_map_iff in Hx.
  destruct Hx as [raw [<- Hraw]]. apply strip_one_line.
  pose proof (split_nl_one_line s) as H.
  rewrite Forall_forall in H. now apply H.
Qed.

Lemma workout_body_no_start (lines : list string) :
  (forall raw, In raw lines -> is_start (strip raw) = false) ->
  workout_body lines = [].
Proof.
  intros H. unfold workout_body. rewrite from_first_none; [reflexivity|].
  intros x Hx. apply filter_In in Hx. destruct Hx as [Hx _].
  apply in_map_iff in Hx. destruct Hx as [raw [<- Hraw]]. now apply H.
Qed.

Lemma description_of_join (workout_lines : list string) :
  description_of workout_lines = join nl (firstn 10 workout_lines).
Proof. now destruct workout_lines. Qed.

Lemma description_of_lines (workout_lines : list string) :
  Forall one_line workout_lines ->
  length (split_nl (description_of workout_lines)) <= 10.
Proof.
  intros H. rewrite description_of_join.
  destruct workout_lines as [|x ls]; [simpl; lia|].
  rewrite split_nl_join.
  - apply firstn_le_length.
  - simpl. discriminate.
  - apply Forall_forall. intros y Hy. rewrite Forall_forall in H.
    apply H. eapply In_firstn; eauto.
Qed.

End WorkoutBody.

(** C4, as stated, fails on a rest day: no line of the page holds a start
    indicator, and the description is the rest-day text, not the empty
    string. *)
Lemma C4_as_stated_counterexample :
  (forall line indicator,
      In line (lines_of bare_rest_day_page) ->
      In indicator ["for time:"; "amrap"; "emom"; "rounds for time:"; "complete:"] ->
      ~ occurs_any_case indicator line)
  /\ description (extract_workout_content bare_rest_day_page "250704") <> "".
Proof.
  split.
  - intros line indicator Hline.
    apply (any_in_lower_false start_indicators).
    destruct Hline as [<-|[<-|[]]]; reflexivity.
  - discriminate.
Qed.

(** C4, amended. The description of every record has at most 10
    newline-separated lines.  When the page is not a rest day the
    description is the collected body cut to its first 10 lines and
    joined with newlines, and it is the empty string if no line of the
    page holds a start indicator ("for time:", "amrap", "emom",
    "rounds for time:", "complete:") in any letter case. *)
Theorem C4_description_lines (soup : node) (date_str : string) :
  let r := extract_workout_content soup date_str in
  length (split_nl (description r)) <= 10
  /\ (is_rest_day r = false ->
      description r
      = join nl (firstn 10 (collect_workout_lines (lines_of soup)))
      /\ ((forall line indicator,
              In line (lines_of soup) ->
              In indicator ["for time:"; "amrap"; "emom"; "rounds for time:";
                            "complete:"] ->
              ~ occurs_any_case indicator line) ->
          description r = "")).
Proof.
  intros r. subst r. unfold extract_workout_content.
  destruct (str_in "rest day" (page_text soup)); cbn [description is_rest_day].
  - split; [simpl; lia | discriminate].
  - split; [|intros _; split].
    + apply description_of_lines. rewrite collect_workout_lines_spec.
      apply workout_body_one_line.
    + apply description_of_join.
    + intros H. rewrite collect_workout_lines_spec, workout_body_no_start.
      * reflexivity.
      * intros raw Hraw. apply any_in_lower_strip_false.
        intros phrase Hphrase. now apply H.
Qed.

Lemma C4_description_lines_witness :
  is_rest_day (extract_workout_content no_workout_page "250704") = false
  /\ (forall line indicator,
         In line (lines_of no_workout_page) ->
         In indicator ["for time:"; "amrap"; "emom"; "rounds for time:";
                       "complete:"] ->
         ~ occurs_any_case indicator line)
  /\ description (extract_workout_content no_workout_page "250704") = "".
Proof.
  assert (H : forall line indicator,
             In line (lines_of no_workout_page) ->
             In indicator ["for time:"; "amrap"; "emom"; "rounds for time:";
                           "complete:"] ->
             ~ occurs_any_case indicator line).
  { intros line indicator Hline.
    apply (any_in_lower_false start_indicators).
    destruct Hline as [<-|[<-|[]]]; reflexivity. }
  split; [reflexivity|]. split; [exact H|].
  exact (proj2 (proj2 (C4_description_lines no_workout_page "250704") eq_refl) H).
Defined.

(** A workout of more than ten lines. *)
Example description_is_cut_to_ten_lines :
  let lines := ["AMRAP"; "1 a"; "2 b"; "3 c"; "4 d"; "5 e"; "6 f"; "7 g";
                "8 h"; "9 i"; "10 j"; "11 k"] in
  length (collect_workout_lines lines) = 12
  /\ split_nl (description_of (collect_workout_lines lines))
     = ["AMRAP"; "1 a"; "2 b"; "3 c"; "4 d"; "5 e"; "6 f"; "7 g"; "8 h"; "9 i"].
Proof. split; reflexivity. Qed.

(** C5, as stated, fails on a line that holds "commented on:": it comes
    after the start indicator, is not empty, does not begin with "**" and
    holds no terminator, and yet it is not in the body. *)
Lemma C5_as_stated_counterexample :
  let lines := ["For time:"; "Bob commented on: nice work"; "21 Thrusters"] in
  let line := nth 1 lines "" in
  is_start (strip (nth 0 lines "")) = true
  /\ strip line <> ""
  /\ is_bold_marked (strip line) = false
  /\ is_terminator (strip line) = false
  /\ collect_workout_lines lines = ["For time:"; "21 Thrusters"]
  /\ ~ In (strip line) (collect_workout_lines lines).
Proof.
  repeat split; try reflexivity; try discriminate.
  intros [H|[H|[]]]; discriminate.
Qed.

(** C5, amended. The body is made of the trimmed lines that are neither
    empty nor hold "commented on:": from the first of them with a start
    indicator on (that line included), each is appended unless it begins
    with "**", and the first of them with a terminator ("stimulus",
    "scaling", "intermediate option", "beginner option", "coaching",
    "resources", "comments", "post time", in any letter case) ends the
    collection, so that neither it nor any later line is in the body. *)
Theorem C5_workout_body_collection (lines : list string) :
  collect_workout_lines lines
  = filter (fun line => negb (startswith line "**"))
      (up_to_first
         (fun line =>
            any_in ["stimulus"; "scaling"; "intermediate option";
                    "beginner option"; "coaching"; "resources"; "comments";
                    "post time"] (lower line))
         (from_first
            (fun line =>
               any_in ["for time:"; "amrap"; "emom"; "rounds for time:";
                       "complete:"] (lower line))
            (filter
               (fun line =>
                  negb (line =? "")
                  && negb (str_in "commented on:" (lower line)))
               (map strip lines)))).
Proof. apply collect_workout_lines_spec. Qed.

Example body_stops_at_terminator :
  collect_workout_lines
    ["Workout of the Day"; ""; "  5 Rounds For Time:"; "**Rx**";
     "400-meter Run"; "  "; "21 Thrusters"; "Post time to comments.";
     "15 Pull-ups"]
  = ["5 Rounds For Time:"; "400-meter Run"; "21 Thrusters"].
Proof. reflexivity. Qed.

(* ================================================================== *)
(** ** Title candidates *)

Section Titles.

Lemma bold_step_cases (titles : list string) (bold : node) :
  let text := strip (get_text bold) in
  (bold_candidate text = true /\ is_event_title text = true
   /\ bold_step titles bold = text :: titles)
  \/ (bold_candidate text = true /\ is_event_title text = false
      /\ bold_step titles bold = titles ++ [text])
  \/ (bold_candidate text && is_event_title text = false
      /\ bold_step titles bold = titles).
Proof.
  intros text. unfold bold_step, bold_candidate, is_event_title. fold text.
  destruct (bold_length_ok text); cbn [andb]; [|auto].
  destruct (any_in skip_phrases (lower text)); cbn [negb andb]; [auto|].
  destruct (search event_re (lower text)); [auto|].
  destruct (any_in title_keywords (lower text)); [auto|].
  destruct (looks_uppercase text); auto.
Qed.

Lemma bold_fold_In (bolds : list node) (titles : list string) (t : string) :
  In t (fold_left bold_step bolds titles) ->
  In t titles
  \/ (In t (map (fun bold => strip (get_text bold)) bolds)
      /\ bold_candidate t = true).
Proof.
  revert titles. induction bolds as [|b bolds IH]; intros titles H.
  - now left.
  - cbn [fold_left] in H. apply IH in H. cbn [map].
    destruct H as [H|[H Hc]]; [|right; split; [now right | exact Hc]].
    destruct (bold_step_cases titles b) as [[Hc [_ E]]|[[Hc [_ E]]|[_ E]]];
      rewrite E in H.
    + destruct H as [<-|H]; [right; split; [now left | exact Hc] | now left].
    + apply in_app_iff in H.
      destruct H as [H|[<-|[]]]; [now left|].
      right; split; [now left | exact Hc].
    + now left.
Qed.

Lemma bold_candidate_spec (t : string) :
  bold_candidate t = true ->
  5 < String.length t <= 50
  /\ forall phrase, In phrase skip_phrases -> ~ occurs_any_case phrase t.
Proof.
  unfold bold_candidate, bold_length_ok.
  rewrite !andb_true_iff, Nat.ltb_lt, Nat.leb_le.
  intros [[[_ H5] H50] Hskip]. split; [lia|].
  apply negb_true_iff in Hskip. now apply any_in_lower_false.
Qed.

Lemma events_in_cons (b : node) (bolds : list node) :
  events_in (b :: bolds)
  = if bold_candidate (strip (get_text b)) && is_event_title (strip (get_text b))
    then strip (get_text b) :: events_in bolds
    else events_in bolds.
Proof. reflexivity. Qed.

(** Without an event title among them, the bold texts only add to the
    end of the list. *)
Lemma bold_fold_no_event (bolds : list node) (titles : list string) :
  events_in bolds = [] ->
  exists more, fold_left bold_step bolds titles = titles ++ more.
Proof.
  revert titles. induction bolds as [|b bolds IH]; intros titles H.
  - exists []. simpl. now rewrite app_nil_r.
  - rewrite events_in_cons in H. cbn [fold_left].
    destruct (bold_step_cases titles b) as [[Hc [He E]]|[[Hc [He E]]|[Hn E]]].
    + rewrite Hc, He in H. discriminate.
    + rewrite Hc, He in H. cbn [andb] in H.
      destruct (IH (titles ++ [strip (get_text b)]) H) as [more Hm].
      exists (strip (get_text b) :: more).
      rewrite E, Hm, <- app_assoc. reflexivity.
    + rewrite Hn in H. rewrite E. now apply IH.
Qed.

(** With one, the last of them in document order is at the head. *)
Lemma bold_fold_event (bolds : list node) (titles : list string) (d : string) :
  events_in bolds <> [] ->
  exists more,
    fold_left bold_step bolds titles = last (events_in bolds) d :: more.
Proof.
  revert titles. induction bolds as [|b bolds IH]; intros titles H.
  - now contradiction H.
  - rewrite events_in_cons in *. cbn [fold_left].
    destruct (events_in bolds) as [|e rest] eqn:Hrest.
    + destruct (bold_step_cases titles b) as [[Hc [He E]]|[[Hc [He E]]|[Hn E]]].
      * rewrite Hc, He. cbn [andb last].
        destruct (bold_fold_no_event bolds (strip (get_text b) :: titles) Hrest)
          as [more Hm].
        exists (titles ++ more). now rewrite E, Hm.
      * rewrite Hc, He in H. now contradiction H.
      * rewrite Hn in H. now contradiction H.
    + destruct (IH (bold_step titles b)) as [more Hm]; [discriminate|].
      exists more. rewrite Hm.
      destruct (bold_candidate (strip (get_text b))
                && is_event_title (strip (get_text b))); reflexivity.
Qed.

(** The headings only add to the end of the list. *)
Lemma heading_fold_app (headings : list node) (titles : list string) :
  exists more, fold_left heading_step headings titles = titles ++ more.
Proof.
  revert titles. induction headings as [|h headings IH]; intros titles.
  - exists []. simpl. now rewrite app_nil_r.
  - cbn [fold_left].
    assert (E : heading_step titles h = titles
                \/ heading_step titles h = titles ++ [strip (get_text h)]).
    { unfold heading_step.
      destruct (negb (strip (get_text h) =? "")
                && (String.length (strip (get_text h)) <=? 50)%nat
                && negb (any_in skip_patterns (lower (strip (get_text h)))));
        [|now left].
      destruct (isupper (strip (get_text h)) || istitle (strip (get_text h))
                || capitalized_word (strip (get_text h))
                || str_in "games" (lower (strip (get_text h)))
                || str_in "event" (lower (strip (get_text h)))); auto. }
    destruct E as [E|E]; rewrite E.
    + apply IH.
    + destruct (IH (titles ++ [strip (get_text h)])) as [more Hm].
      exists (strip (get_text h) :: more). rewrite Hm, <- app_assoc.
      reflexivity.
Qed.

Lemma title_of_event_page (soup : node) (date_str : string) :
  is_rest_day (extract_workout_content soup date_str) = false ->
  event_candidates soup <> [] ->
  title (extract_workout_content soup date_str)
  = last (event_candidates soup) date_str
  /\ is_named_workout (extract_workout_content soup date_str) = true.
Proof.
  rewrite is_rest_day_spec. intros Hrest Hev.
  unfold extract_workout_content. rewrite Hrest. cbn [title is_named_workout].
  unfold potential_titles.
  destruct (heading_fold_app (find_all ["h1"; "h2"; "h3"] soup) (bold_titles soup))
    as [more ->].
  destruct (bold_fold_event (find_all ["strong"; "b"] soup) [] date_str Hev)
    as [more' Hb].
  unfold bold_titles. rewrite Hb. split; reflexivity.
Qed.

Lemma last_In {A : Type} (l : list A) (d : A) : l <> [] -> In (last l d) l.
Proof.
  induction l as [|x l IH]; intros H; [congruence|].
  destruct l as [|y l]; [now left|].
  right. apply IH. discriminate.
Qed.

End Titles.

Example games_page_titles :
  potential_titles games_page
  = ["2025 CrossFit Games Event 3"; "CHAMPIONSHIP WEEK"; "FRIDAY"].
Proof. reflexivity. Qed.

(** C6, as stated, fails at length 50: a bold text of exactly 50
    characters is admitted, and here it becomes the title. *)
Lemma C6_as_stated_counterexample :
  String.length fifty_letters = 50
  /\ In fifty_letters (bold_titles fifty_letters_page)
  /\ title (extract_workout_content fifty_letters_page "250704") = fifty_letters.
Proof. repeat split. now left. Qed.

(** C6, amended. A bold text is among the title candidates only if,
    trimmed, it has more than 5 and at most 50 characters and holds none
    of the promotional phrases in any letter case; so every bold text of
    5 characters or fewer, of more than 50, or with a promotional phrase
    is left out. *)
Theorem C6_bold_candidate_filter (soup : node) (text : string) :
  In text (bold_titles soup) ->
  In text (bold_texts soup)
  /\ 5 < String.length text <= 50
  /\ forall phrase,
      In phrase ["watch now"; "are live"; "shop"; "buy"; "sale"; "click here";
                 "subscribe"] ->
      ~ occurs_any_case phrase text.
Proof.
  intros H. apply bold_fold_In in H. destruct H as [[]|[Hin Hc]].
  split; [exact Hin|]. now apply bold_candidate_spec.
Qed.

Lemma C6_bold_candidate_filter_witness :
  In "2025 CrossFit Games Event 3" (bold_titles games_page)
  /\ In "2025 CrossFit Games Event 3" (bold_texts games_page)
  /\ 5 < String.length "2025 CrossFit Games Event 3" <= 50
  /\ forall phrase,
      In phrase ["watch now"; "are live"; "shop"; "buy"; "sale"; "click here";
                 "subscribe"] ->
      ~ occurs_any_case phrase "2025 CrossFit Games Event 3".
Proof.
  assert (H : In "2025 CrossFit Games Event 3" (bold_titles games_page))
    by now left.
  split; [exact H|].
  exact (C6_bold_candidate_filter games_page "2025 CrossFit Games Event 3" H).
Defined.

Example promotional_bold_is_skipped :
  bold_titles
    (document [Tag "b" [NavigableString "GAMES TICKETS ON SALE"];
               Tag "b" [NavigableString "FRAN"];
               Tag "b" [NavigableString "BENCHMARK FRAN"]])
  = ["BENCHMARK FRAN"].
Proof. reflexivity. Qed.

(** C7, as stated, fails on a rest day: both kinds of bold candidates are
    on the page, and the title is the date code. *)
Lemma C7_as_stated_counterexample :
  In "Event 12 Recap" (bold_texts rest_day_event_page)
  /\ bold_candidate "Event 12 Recap" = true
  /\ is_event_title "Event 12 Recap" = true
  /\ In "ACTIVE REST DAY" (bold_texts rest_day_event_page)
  /\ bold_candidate "ACTIVE REST DAY" = true
  /\ isupper "ACTIVE REST DAY" = true
  /\ title (extract_workout_content rest_day_event_page "250704") = "250704"
  /\ ~ In (title (extract_workout_content rest_day_event_page "250704"))
          (bold_texts rest_day_event_page).
Proof.
  repeat split; try reflexivity; simpl; auto.
  intros [H|[H|[]]]; discriminate.
Qed.

(** C7, amended. On a page that is not a rest day, as soon as one bold
    text passes the filter and matches "event", whitespace, digits in any
    letter case, the title of the record is such a bold text (the last of
    them in document order) and the workout is named, whatever other bold
    candidates and headings the page has. *)
Theorem C7_event_title_preferred (soup : node) (date_str event : string) :
  is_rest_day (extract_workout_content soup date_str) = false ->
  In event (bold_texts soup) ->
  bold_candidate event = true ->
  is_event_title event = true ->
  let r := extract_workout_content soup date_str in
  title r = last (event_candidates soup) date_str
  /\ In (title r) (bold_texts soup)
  /\ bold_candidate (title r) = true
  /\ is_event_title (title r) = true
  /\ is_named_workout r = true.
Proof.
  intros Hrest Hin Hc He r. subst r.
  assert (Hne : event_candidates soup <> []).
  { intros E.
    assert (Hev : In event (event_candidates soup)).
    { apply filter_In. split; [exact Hin|]. now rewrite Hc, He. }
    rewrite E in Hev. exact Hev. }
  destruct (title_of_event_page soup date_str Hrest Hne) as [Ht Hn].
  rewrite Ht. split; [reflexivity|].
  pose proof (last_In (event_candidates soup) date_str Hne) as Hl.
  apply filter_In in Hl. destruct Hl as [Hl Hb].
  apply andb_true_iff in Hb. tauto.
Qed.

Lemma C7_event_title_preferred_witness :
  is_rest_day (extract_workout_content games_page "250704") = false
  /\ In "2025 CrossFit Games Event 3" (bold_texts games_page)
  /\ bold_candidate "2025 CrossFit Games Event 3" = true
  /\ is_event_title "2025 CrossFit Games Event 3" = true
  /\ let r := extract_workout_content games_page "250704" in
     title r = last (event_candidates games_page) "250704"
     /\ In (title r) (bold_texts games_page)
     /\ bold_candidate (title r) = true
     /\ is_event_title (title r) = true
     /\ is_named_workout r = true.
Proof.
  assert (Hin : In "2025 CrossFit Games Event 3" (bold_texts games_page))
    by (right; now left).
  split; [reflexivity|]. split; [exact Hin|].
  split; [reflexivity|]. split; [reflexivity|].
  exact (C7_event_title_preferred games_page "250704"
           "2025 CrossFit Games Event 3" eq_refl Hin eq_refl eq_refl).
Defined.

Example last_event_title_wins :
  title (extract_workout_content
           (document [Tag "b" [NavigableString "Event 1 Sprint"];
                      Tag "b" [NavigableString "TEAM SERIES"];
                      Tag "b" [NavigableString "Event 2 Chipper"]])
           "250704")
  = "Event 2 Chipper".
Proof. reflexivity. Qed.

(* ================================================================== *)
(** ** Scaling options *)

Section Scaling.

Lemma scaling_of_paragraphs (lines : list string) :
  scaling_of lines = paragraphs (scaling_parts lines).
Proof. unfold scaling_of. now destruct (scaling_parts lines). Qed.

(** The blocks of the lines above an option line depend on the lines
    below them; the block of the line itself and those after it do not
    depend on the lines above. *)
Lemma option_blocks_at (option_type : string) (pre post : list string)
      (line : string) :
  str_in option_type (lower line) = true ->
  1 < length (option_text line post) ->
  exists before,
    option_blocks option_type (pre ++ line :: post)
    = before ++ [option_block line post] ++ option_blocks option_type post.
Proof.
  intros Hin Hlen. induction pre as [|x pre [before IH]].
  - apply Nat.ltb_lt in Hlen. exists [].
    cbn [app option_blocks]. rewrite Hin, Hlen. reflexivity.
  - cbn [app option_blocks]. rewrite IH.
    eexists. rewrite app_assoc. reflexivity.
Qed.

Lemma join_length (sep : string) (parts : list string) :
  String.length (join sep parts) + String.length sep
  = list_sum (map (fun part => String.length part + String.length sep) parts)
    + (match parts with [] => String.length sep | _ => 0 end).
Proof.
  induction parts as [|x parts IH]; [reflexivity|].
  destruct parts as [|y parts].
  - simpl. lia.
  - change (join sep (x :: y :: parts))
      with (x ++ sep ++ join sep (y :: parts))%string.
    rewrite !length_append. cbn [map list_sum fold_right] in *. lia.
Qed.

Lemma list_sum_zero (sep : string) (parts : list string) :
  0 < String.length sep ->
  list_sum (map (fun part => String.length part + String.length sep) parts) = 0 ->
  parts = [].
Proof. destruct parts; [reflexivity | simpl; lia]. Qed.

(** Two paragraphs that fill a text are the whole of it. *)
Lemma paragraphs_exact (before between after : list string) (x y : string) :
  String.length (paragraphs (before ++ [x] ++ between ++ [y] ++ after))
  = String.length x + 2 + String.length y ->
  before = [] /\ between = [] /\ after = [].
Proof.
  intros H.
  pose proof (join_length (nl ++ nl) (before ++ [x] ++ between ++ [y] ++ after))
    as E.
  unfold paragraphs in H. rewrite H in E.
  rewrite !map_app, !list_sum_app in E.
  destruct (before ++ [x] ++ between ++ [y] ++ after) eqn:Hl.
  { destruct before; simpl in Hl; discriminate. }
  clear Hl. cbn [map list_sum fold_right] in E.
  change (String.length (nl ++ nl)) with 2 in E.
  repeat split; apply (list_sum_zero (nl ++ nl)); simpl; lia.
Qed.

End Scaling.

(** C8, as stated, fails when the beginner option comes first in the
    document: both blocks are in the scaling text, the intermediate one
    first, so the text does not have them in document order. *)
Lemma C8_as_stated_counterexample :
  lines_of beginner_first_page
  = [] ++ "Beginner Option:" :: ["10 Air Squats"; "Intermediate Option:"; "20 Air Squats"]
  /\ lines_of beginner_first_page
     = ["Beginner Option:"; "10 Air Squats"] ++ "Intermediate Option:" :: ["20 Air Squats"]
  /\ scaling (extract_workout_content beginner_first_page "250704")
     = paragraphs
         [option_block "Intermediate Option:" ["20 Air Squats"];
          option_block "Beginner Option:"
            ["10 Air Squats"; "Intermediate Option:"; "20 Air Squats"]]
  /\ ~ exists before between after,
         scaling (extract_workout_content beginner_first_page "250704")
         = paragraphs
             (before
                ++ [option_block "Beginner Option:"
                      ["10 Air Squats"; "Intermediate Option:"; "20 Air Squats"]]
                ++ between
                ++ [option_block "Intermediate Option:" ["20 Air Squats"]]
                ++ after).
Proof.
  repeat split.
  intros [before [between [after H]]].
  assert (Hlen := f_equal String.length H).
  symmetry in Hlen. apply paragraphs_exact in Hlen.
  destruct Hlen as [-> [-> ->]]. discriminate H.
Qed.

(** C8, amended. On a page that is not a rest day, when a line holds
    "intermediate option:" and a line holds "beginner option:" (in any
    letter case) and each has at least one line kept after it, the scaling
    text has both blocks among its paragraphs, which a blank line
    separates, the intermediate block before the beginner block wherever
    the two lines stand in the document. *)
Theorem C8_scaling_option_blocks
        (soup : node) (date_str : string)
        (pre_i post_i pre_b post_b : list string) (line_i line_b : string) :
  is_rest_day (extract_workout_content soup date_str) = false ->
  lines_of soup = pre_i ++ line_i :: post_i ->
  occurs_any_case "intermediate option:" line_i ->
  1 < length (option_text line_i post_i) ->
  lines_of soup = pre_b ++ line_b :: post_b ->
  occurs_any_case "beginner option:" line_b ->
  1 < length (option_text line_b post_b) ->
  exists before between after,
    scaling (extract_workout_content soup date_str)
    = paragraphs
        (before ++ [option_block line_i post_i]
                ++ between ++ [option_block line_b post_b] ++ after).
Proof.
  intros Hrest Hi Hoi Hli Hb Hob Hlb.
  rewrite is_rest_day_spec in Hrest.
  unfold extract_workout_content. rewrite Hrest. cbn [scaling].
  rewrite scaling_of_paragraphs. unfold scaling_parts, option_types.
  cbn [flat_map]. rewrite app_nil_r.
  destruct (option_blocks_at "intermediate option:" pre_i post_i line_i)
    as [before_i Ei];
    [now apply str_in_spec, occurs_any_case_lower | exact Hli |].
  destruct (option_blocks_at "beginner option:" pre_b post_b line_b)
    as [before_b Eb];
    [now apply str_in_spec, occurs_any_case_lower | exact Hlb |].
  rewrite <- Hi in Ei. rewrite <- Hb in Eb. rewrite Ei, Eb.
  exists (scaling_section (lines_of soup) ++ before_i),
    (option_blocks "intermediate option:" post_i ++ before_b),
    (option_blocks "beginner option:" post_b).
  f_equal. now rewrite <- !app_assoc.
Qed.

Example scaled_page_scaling :
  scaling (extract_workout_content scaled_page "250704")
  = ("Reduce the load." ++ nl ++ nl
       ++ "Intermediate Option:" ++ nl ++ "15 Thrusters" ++ nl ++ nl
       ++ "Beginner Option:" ++ nl ++ "9 Thrusters")%string.
Proof. reflexivity. Qed.

Lemma C8_scaling_option_blocks_witness :
  let pre_i := ["For time:"; "21 Thrusters"; "Scaling:"; "Reduce the load."] in
  let post_i := [" 15 Thrusters"; "Beginner Option:"; " 9 Thrusters";
                 "Coaching cues:"; "Elbows high."] in
  let pre_b := pre_i ++ ["Intermediate Option:"; " 15 Thrusters"] in
  let post_b := [" 9 Thrusters"; "Coaching cues:"; "Elbows high."] in
  is_rest_day (extract_workout_content scaled_page "250704") = false
  /\ lines_of scaled_page = pre_i ++ "Intermediate Option:" :: post_i
  /\ occurs_any_case "intermediate option:" "Intermediate Option:"
  /\ 1 < length (option_text "Intermediate Option:" post_i)
  /\ lines_of scaled_page = pre_b ++ "Beginner Option:" :: post_b
  /\ occurs_any_case "beginner option:" "Beginner Option:"
  /\ 1 < length (option_text "Beginner Option:" post_b)
  /\ exists before between after,
      scaling (extract_workout_content scaled_page "250704")
      = paragraphs
          (before ++ [option_block "Intermediate Option:" post_i]
                  ++ between ++ [option_block "Beginner Option:" post_b]
                  ++ after).
Proof.
  intros pre_i post_i pre_b post_b.
  assert (Hi : occurs_any_case "intermediate option:" "Intermediate Option:")
    by (exists "", "Intermediate Option:", ""; split; reflexivity).
  assert (Hb : occurs_any_case "beginner option:" "Beginner Option:")
    by (exists "", "Beginner Option:", ""; split; reflexivity).
  assert (Hli : 1 < length (option_text "Intermediate Option:" post_i))
    by (vm_compute; lia).
  assert (Hlb : 1 < length (option_text "Beginner Option:" post_b))
    by (vm_compute; lia).
  repeat (split; [first [reflexivity | assumption]|]).
  exact (C8_scaling_option_blocks scaled_page "250704"
           pre_i post_i pre_b post_b "Intermediate Option:" "Beginner Option:"
           eq_refl eq_refl Hi Hli eq_refl Hb Hlb).
Defined.

(* ================================================================== *)
(** ** [re.findall] never runs out of fuel *)

Section Fuel.

Lemma plus_greedy_shorter {A : Type} (p : ascii -> bool) (s : string)
      (k : string -> option A) (x : A) :
  plus_greedy p s k = Some x ->
  exists r, k r = Some x /\ String.length r < String.length s.
Proof.
  induction s as [|c s IH]; simpl; [discriminate|].
  destruct (p c); [|discriminate].
  destruct (plus_greedy p s k) as [y|] eqn:E; simpl.
  - intros [= ->]. destruct (IH eq_refl) as [r [Hr Hl]].
    exists r. split; [exact Hr | lia].
  - intros H. exists s. split; [exact H | lia].
Qed.

Lemma plus_lazy_shorter {A : Type} (p : ascii -> bool) (s : string)
      (k : string -> option A) (x : A) :
  plus_lazy p s k = Some x ->
  exists r, k r = Some x /\ String.length r < String.length s.
Proof.
  induction s as [|c s IH]; simpl; [discriminate|].
  destruct (p c); [|discriminate].
  destruct (k s) as [y|] eqn:E; simpl.
  - intros [= ->]. exists s. split; [exact E | lia].
  - intros H. destruct (IH H) as [r [Hr Hl]].
    exists r. split; [exact Hr | lia].
Qed.

Lemma drop_length (n : nat) (s : string) :
  String.length (drop n s) <= String.length s.
Proof.
  revert s; induction n as [|n IH]; intros [|c s]; simpl; try lia.
  specialize (IH s). lia.
Qed.

Lemma lit_shortens {A : Type} (t : string) : @shortens A (lit t).
Proof.
  intros s k x. unfold lit. destruct (prefix t s); [|discriminate].
  intros H. exists (drop (String.length t) s).
  split; [exact H | apply drop_length].
Qed.

Lemma plus_greedy_shortens {A : Type} (p : ascii -> bool) :
  @shortens A (plus_greedy p).
Proof.
  intros s k x H. apply plus_greedy_shorter in H.
  destruct H as [r [Hr Hl]]. exists r. split; [exact Hr | lia].
Qed.

Lemma opt_shortens {A : Type} (m : @matcher A) :
  shortens m -> shortens (opt m).
Proof.
  intros Hm s k x. unfold opt, orelse.
  destruct (m s k) as [y|] eqn:E.
  - intros [= ->]. now apply Hm.
  - intros H. exists s. split; [exact H | lia].
Qed.

Lemma alt_shortens {A : Type} (m1 m2 : @matcher A) :
  shortens m1 -> shortens m2 -> shortens (alt m1 m2).
Proof.
  intros H1 H2 s k x. unfold alt, orelse.
  destruct (m1 s k) as [y|] eqn:E.
  - intros [= ->]. now apply H1.
  - now apply H2.
Qed.

Lemma seq_shortens {A : Type} (m1 m2 : @matcher A) :
  shortens m1 -> shortens m2 -> shortens (seq m1 m2).
Proof.
  intros H1 H2 s k x. unfold seq. intros H.
  apply H1 in H. destruct H as [r1 [H Hl1]].
  apply H2 in H. destruct H as [r2 [H Hl2]].
  exists r2. split; [exact H | lia].
Qed.

(** A match of the movement pattern reads at least one character. *)
Lemma movement_re_shorter (s g1 g2 rest : string) :
  movement_re s = Some (g1, g2, rest) ->
  String.length rest < String.length s.
Proof.
  unfold movement_re. intros H.
  apply seq_shortens in H;
    [| apply plus_greedy_shortens
     | apply seq_shortens;
       [ apply opt_shortens, seq_shortens;
         [apply lit_shortens | apply plus_greedy_shortens]
       | apply opt_shortens, alt_shortens; apply lit_shortens ] ].
  destruct H as [s1 [H H1]].
  apply plus_greedy_shorter in H. destruct H as [s2 [H H2]].
  apply plus_lazy_shorter in H. destruct H as [s3 [H H3]].
  destruct (name_end s3); [|discriminate].
  injection H as _ _ <-. lia.
Qed.

Lemma findall_from_fuel (n m : nat) (s : string) :
  String.length s < n -> String.length s < m ->
  findall_from n s = findall_from m s.
Proof.
  revert m s. induction n as [|n IH]; intros m s Hn Hm; [lia|].
  destruct m as [|m]; [lia|]. cbn [findall_from].
  destruct (movement_re s) as [[[g1 g2] rest]|] eqn:E.
  - apply movement_re_shorter in E. f_equal. apply IH; lia.
  - destruct s as [|c s]; [reflexivity|]. simpl in Hn, Hm. apply IH; lia.
Qed.

(** [findall] obeys the equations of the search loop. *)
Lemma findall_unfold (s : string) :
  findall s
  = match movement_re s with
    | Some (g1, g2, rest) => (g1, g2) :: findall rest
    | None => match s with
              | "" => []
              | String _ r => findall r
              end
    end.
Proof.
  unfold findall.
  change (findall_from (S (String.length s)) s)
    with (match movement_re s with
          | Some (g1, g2, rest) => (g1, g2) :: findall_from (String.length s) rest
          | None => match s with
                    | "" => []
                    | String _ r => findall_from (String.length s) r
                    end
          end).
  destruct (movement_re s) as [[[g1 g2] rest]|] eqn:E.
  - apply movement_re_shorter in E. f_equal.
    apply findall_from_fuel; lia.
  - destruct s as [|c s]; [reflexivity|].
    apply findall_from_fuel; simpl; lia.
Qed.

End Fuel.


(* ================================================================== *)
(** ** The embedding on concrete texts *)

Example findall_backtracks_into_the_spaces :
  findall "21  , 3 a  b(1 mile run,15 push-ups 400-meter Run"
  = [("21", " "); ("1", "mile run"); ("400-meter", "Run")].
Proof. reflexivity. Qed.

Example findall_thousands_and_units :
  findall "1,000-meter row, 20 Pull-ups (kipping)" = [("1,000-meter", "row")]
  /\ findall "10,5 a,,7-meter-mile x" = [("10,5", "a")]
  /\ findall "1-mile-meter x y" = [].
Proof. repeat split. Qed.

Example findall_across_newlines :
  findall ("3  " ++ nl ++ " x,4-mile  run" ++ nl) = [("3", "x"); ("4-mile", "run")]
  /\ findall ("12 " ++ nl) = [("12", nl)].
Proof. split; reflexivity. Qed.

Example capitalized_word_cases :
  capitalized_word "Fran" = true
  /\ capitalized_word ("Fran" ++ nl) = true
  /\ capitalized_word ("Fran" ++ nl ++ nl) = false
  /\ capitalized_word "FrAn" = false
  /\ capitalized_word "F" = false.
Proof. repeat split. Qed.

Example event_re_cases :
  search event_re "games event  12" = true
  /\ search event_re "event12" = false
  /\ search event_re "events 1" = false.
Proof. repeat split. Qed.

Example str_cases :
  split_nl ("a" ++ nl ++ "b" ++ nl) = ["a"; "b"; ""]
  /\ split_nl "" = [""]
  /\ strip "  a b  " = "a b"
  /\ strip "   " = ""
  /\ lower "Rest DAY" = "rest day"
  /\ istitle "Ab Cd" = true
  /\ istitle "A1b" = false
  /\ isupper "AB 1" = true.
Proof. repeat split. Qed.

(** The scenario of the specification: "For Time:", two movements, then
    "Scaling:". *)
Example for_time_scenario :
  extract_workout_content
    (document
       [NavigableString
          ("For Time:" ++ nl ++ "400-meter Run" ++ nl ++ "21 Thrusters" ++ nl
             ++ "Scaling:" ++ nl)])
    "250704"
  = mk_content "250704"
      ("For Time:" ++ nl ++ "400-meter Run" ++ nl ++ "21 Thrusters")
      ["400-meter Run"; "21 Thrusters"] "" "" false false false.
Proof. reflexivity. Qed.

Example movements_deduplicated_and_cut :
  movements_of
    ["AMRAP 20"; "10 Push-ups, 10 Push-ups, 20 Squats"; "30 Sit-ups";
     "40 Lunges"; "50 Burpees"; "60 Swings"; "70 Rows"; "20 Squats";
     "80 Cleans"; "90 Jerks"; "95 Snatches"]
  = ["10 Push-ups"; "20 Squats"; "30 Sit-ups"; "40 Lunges"; "50 Burpees";
     "60 Swings"; "70 Rows"; "80 Cleans"].
Proof. reflexivity. Qed.

(* ================================================================== *)
(** ** The rank of the title candidates *)

Section Ranking.

Lemma bold_step_rank (titles : list string) (bold : node) :
  let text := strip (get_text bold) in
  bold_step titles bold
  = (if bold_candidate text && is_event_title text then [text] else [])
      ++ titles
      ++ (if appended_candidate text then [text] else []).
Proof.
  intros text.
  unfold bold_step, appended_candidate, bold_candidate, is_event_title.
  fold text.
  destruct (bold_length_ok text); cbn [andb app];
    [|now rewrite app_nil_r].
  destruct (any_in skip_phrases (lower text)); cbn [negb andb app];
    [now rewrite app_nil_r|].
  destruct (search event_re (lower text)); cbn [negb andb app];
    [now rewrite app_nil_r|].
  destruct (any_in title_keywords (lower text)); cbn [orb]; [reflexivity|].
  destruct (looks_uppercase text); cbn [app]; [reflexivity|].
  now rewrite app_nil_r.
Qed.

Lemma bold_fold_rank (bolds : list node) (titles : list string) :
  fold_left bold_step bolds titles
  = rev (events_in bolds) ++ titles
      ++ filter appended_candidate
           (map (fun bold => strip (get_text bold)) bolds).
Proof.
  revert titles. induction bolds as [|b bolds IH]; intros titles.
  - simpl. now rewrite app_nil_r.
  - cbn [fold_left map filter]. rewrite IH, bold_step_rank, events_in_cons.
    destruct (bold_candidate (strip (get_text b))
              && is_event_title (strip (get_text b)));
      destruct (appended_candidate (strip (get_text b)));
      cbn [rev app]; rewrite <- ?app_assoc; cbn [app];
      rewrite ?app_nil_r; reflexivity.
Qed.

Lemma heading_step_rank (titles : list string) (heading : node) :
  heading_step titles heading
  = titles ++ (if heading_candidate (strip (get_text heading))
               then [strip (get_text heading)] else []).
Proof.
  unfold heading_step, heading_candidate.
  destruct (negb (strip (get_text heading) =? "")
            && (String.length (strip (get_text heading)) <=? 50)%nat
            && negb (any_in skip_patterns (lower (strip (get_text heading)))));
    cbn [andb]; [|now rewrite app_nil_r].
  destruct (isupper (strip (get_text heading))
            || istitle (strip (get_text heading))
            || capitalized_word (strip (get_text heading))
            || str_in "games" (lower (strip (get_text heading)))
            || str_in "event" (lower (strip (get_text heading))));
    [reflexivity | now rewrite app_nil_r].
Qed.

Lemma heading_fold_rank (headings : list node) (titles : list string) :
  fold_left heading_step headings titles
  = titles ++ filter heading_candidate
                (map (fun heading => strip (get_text heading)) headings).
Proof.
  revert titles. induction headings as [|h headings IH]; intros titles.
  - simpl. now rewrite app_nil_r.
  - cbn [fold_left map filter]. rewrite IH, heading_step_rank.
    destruct (heading_candidate (strip (get_text h)));
      rewrite <- ?app_assoc; cbn [app]; rewrite ?app_nil_r; reflexivity.
Qed.

Lemma potential_titles_ranked (soup : node) :
  potential_titles soup = ranked_titles soup.
Proof.
  unfold potential_titles, bold_titles, ranked_titles.
  rewrite heading_fold_rank, bold_fold_rank. cbn [app].
  unfold event_candidates, bold_texts, heading_texts.
  now rewrite <- app_assoc.
Qed.

End Ranking.

(** X1. On a page that is not a rest day the title is the first of the
    title candidates by rank - the event titles in bold, the last of the
    document first, then the other bold candidates in document order,
    then the headings in document order - and the date code when there is
    none; the workout is named when there is a candidate or it is a hero
    workout. *)
Theorem X1_title_by_rank (soup : node) (date_str : string) :
  is_rest_day (extract_workout_content soup date_str) = false ->
  let r := extract_workout_content soup date_str in
  title r
  = hd date_str
       (rev (event_candidates soup)
          ++ filter appended_candidate (bold_texts soup)
          ++ filter heading_candidate (heading_texts soup))
  /\ is_named_workout r
     = negb (length (ranked_titles soup) =? 0)%nat || is_hero_workout r.
Proof.
  rewrite is_rest_day_spec. intros Hrest r. subst r.
  unfold extract_workout_content. rewrite Hrest.
  cbn [title is_named_workout is_hero_workout].
  rewrite potential_titles_ranked. fold (ranked_titles soup).
  destruct (ranked_titles soup); split; reflexivity.
Qed.

Lemma X1_title_by_rank_witness :
  is_rest_day (extract_workout_content heading_page "250704") = false
  /\ let r := extract_workout_content heading_page "250704" in
     title r
     = hd "250704"
          (rev (event_candidates heading_page)
             ++ filter appended_candidate (bold_texts heading_page)
             ++ filter heading_candidate (heading_texts heading_page))
     /\ is_named_workout r
        = negb (length (ranked_titles heading_page) =? 0)%nat
          || is_hero_workout r.
Proof.
  split; [reflexivity|].
  exact (X1_title_by_rank heading_page "250704" eq_refl).
Defined.

Example heading_page_title :
  title (extract_workout_content heading_page "250704") = "Fran"
  /\ ranked_titles games_page
     = ["2025 CrossFit Games Event 3"; "CHAMPIONSHIP WEEK"; "FRIDAY"].
Proof. split; reflexivity. Qed.

(* ================================================================== *)
(** ** The shape of a title *)

Section Trimmed.

Lemma lstrip_head (s : string) :
  lstrip s = ""
  \/ exists c r, lstrip s = String c r /\ char_isspace c = false.
Proof.
  induction s as [|c s IH]; simpl; [now left|].
  destruct (char_isspace c) eqn:E; [exact IH|].
  right. now exists c, s.
Qed.

Lemma rstrip_head (c : ascii) (r : string) :
  char_isspace c = false -> exists r', rstrip (String c r) = String c r'.
Proof.
  intros H. simpl. rewrite H. destruct (rstrip r); eauto.
Qed.

Lemma rstrip_idem (s : string) : rstrip (rstrip s) = rstrip s.
Proof.
  induction s as [|c s IH]; [reflexivity|].
  cbn [rstrip]. destruct (rstrip s) as [|d r'] eqn:E.
  - destruct (char_isspace c) eqn:Hc; [reflexivity|].
    cbn [rstrip]. now rewrite Hc.
  - cbn [rstrip]. cbn [rstrip] in IH.
    destruct (match rstrip r' with
              | "" => if char_isspace d then "" else String d ""
              | String a s0 => String d (String a s0)
              end); [discriminate|].
    now rewrite IH.
Qed.

Lemma strip_trimmed (s : string) : trimmed (strip s).
Proof.
  unfold trimmed, strip.
  destruct (lstrip_head s) as [E|[c [r [E Hc]]]]; rewrite E.
  - reflexivity.
  - destruct (rstrip_head c r Hc) as [r' Hr].
    rewrite Hr at 1. cbn [lstrip]. rewrite Hc, <- Hr. apply rstrip_idem.
Qed.

Lemma ranked_titles_In (soup : node) (text : string) :
  In text (ranked_titles soup) ->
  (In text (bold_texts soup) /\ bold_candidate text = true)
  \/ (In text (heading_texts soup) /\ heading_candidate text = true).
Proof.
  unfold ranked_titles. rewrite !in_app_iff, <- in_rev.
  unfold event_candidates, events_in. fold (bold_texts soup).
  rewrite !filter_In. unfold appended_candidate.
  rewrite !andb_true_iff. tauto.
Qed.

Lemma candidate_shape (soup : node) (text : string) :
  In text (ranked_titles soup) ->
  trimmed text /\ 0 < String.length text <= 50.
Proof.
  intros H. apply ranked_titles_In in H.
  destruct H as [[Hin Hc]|[Hin Hc]].
  - split.
    + apply in_map_iff in Hin. destruct Hin as [b [<- _]]. apply strip_trimmed.
    + apply bold_candidate_spec in Hc. lia.
  - split.
    + apply in_map_iff in Hin. destruct Hin as [b [<- _]]. apply strip_trimmed.
    + unfold heading_candidate in Hc.
      rewrite !andb_true_iff, Nat.leb_le in Hc.
      destruct Hc as [[[Hne Hlen] _] _].
      destruct text; [discriminate | simpl in *; lia].
Qed.

End Trimmed.

(** X2. The title of a record is the date code, or a text of 1 to 50
    characters without whitespace at either end; so it is never empty
    when the date code is not. *)
Theorem X2_title_shape (soup : node) (date_str : string) :
  date_str <> "" ->
  let r := extract_workout_content soup date_str in
  title r <> ""
  /\ (title r = date_str
      \/ (strip (title r) = title r /\ 0 < String.length (title r) <= 50)).
Proof.
  intros Hd r. subst r.
  assert (H : title (extract_workout_content soup date_str) = date_str
              \/ In (title (extract_workout_content soup date_str))
                    (ranked_titles soup)).
  { unfold extract_workout_content.
    destruct (str_in "rest day" (page_text soup)); cbn [title]; [now left|].
    rewrite potential_titles_ranked.
    destruct (ranked_titles soup); [now left | right; now left]. }
  destruct H as [H|H].
  - rewrite H. split; [exact Hd | now left].
  - apply candidate_shape in H. destruct H as [Ht Hl]. split.
    + intros E. rewrite E in Hl. simpl in Hl. lia.
    + right. split; [exact Ht | exact Hl].
Qed.

Lemma X2_title_shape_witness :
  "250704" <> ""
  /\ let r := extract_workout_content games_page "250704" in
     title r <> ""
     /\ (title r = "250704"
         \/ (strip (title r) = title r /\ 0 < String.length (title r) <= 50)).
Proof.
  assert (H : "250704" <> "") by discriminate.
  split; [exact H | exact (X2_title_shape games_page "250704" H)].
Defined.

(* ================================================================== *)
(** ** The shape of a movement *)

Section MovementShape.

Lemma all_chars_cons (p : ascii -> bool) (c : ascii) (s : string) :
  all_chars p (String c s) <-> p c = true /\ all_chars p s.
Proof.
  unfold all_chars. simpl. rewrite orb_false_iff, negb_false_iff. tauto.
Qed.

Lemma all_chars_lstrip (p : ascii -> bool) (s : string) :
  all_chars p s -> all_chars p (lstrip s).
Proof.
  induction s as [|c s IH]; intros H; simpl; [exact H|].
  destruct (char_isspace c); [|exact H].
  apply IH. now apply all_chars_cons in H.
Qed.

Lemma all_chars_rstrip (p : ascii -> bool) (s : string) :
  all_chars p s -> all_chars p (rstrip s).
Proof.
  induction s as [|c s IH]; intros H; simpl; [exact H|].
  apply all_chars_cons in H. destruct H as [Hc Hs]. apply IH in Hs.
  destruct (rstrip s) as [|d r].
  - destruct (char_isspace c); [reflexivity|].
    apply all_chars_cons. now split.
  - apply all_chars_cons. now split.
Qed.

Lemma take_append (pre r : string) :
  take (String.length (pre ++ r) - String.length r) (pre ++ r) = pre.
Proof.
  rewrite length_append.
  replace (String.length pre + String.length r - String.length r)
    with (String.length pre) by lia.
  induction pre as [|c pre IH]; simpl.
  - now destruct r.
  - now rewrite IH.
Qed.

(** A lazy run hands over what is left after a run of the class. *)
Lemma plus_lazy_run {A : Type} (p : ascii -> bool) (s : string)
      (k : string -> option A) (x : A) :
  plus_lazy p s k = Some x ->
  exists pre r, s = (pre ++ r)%string /\ all_chars p pre /\ k r = Some x.
Proof.
  induction s as [|c s IH]; simpl; [discriminate|].
  destruct (p c) eqn:Hc; [|discriminate].
  destruct (k s) as [y|] eqn:E; simpl.
  - intros [= ->]. exists (String c ""), s.
    repeat split; [|exact E]. apply all_chars_cons. now split.
  - intros H. destruct (IH H) as [pre [r [-> [Hp Hk]]]].
    exists (String c pre), r. repeat split; [|exact Hk].
    apply all_chars_cons. now split.
Qed.

Lemma plus_greedy_head {A : Type} (p : ascii -> bool) (s : string)
      (k : string -> option A) (x : A) :
  plus_greedy p s k = Some x ->
  exists c r, s = String c r /\ p c = true.
Proof.
  destruct s as [|c r]; simpl; [discriminate|].
  destruct (p c) eqn:Hc; [|discriminate]. intros _. now exists c, r.
Qed.

(** The two groups of a match: digits first in the quantity, characters
    of the name class only in the name. *)
Lemma movement_re_groups (s g1 g2 rest : string) :
  movement_re s = Some (g1, g2, rest) ->
  (exists c q, g1 = String c q /\ char_isdigit c = true)
  /\ all_chars name_char g2.
Proof.
  unfold movement_re. intros H.
  assert (Hhead := H). unfold seq at 1 in Hhead.
  apply plus_greedy_head in Hhead. destruct Hhead as [c [r0 [Hs Hc]]].
  unfold seq at 1 in H.
  apply plus_greedy_shorter in H. destruct H as [r1 [H Hr1]].
  apply seq_shortens in H;
    [| apply opt_shortens, seq_shortens;
       [apply lit_shortens | apply plus_greedy_shortens]
     | apply opt_shortens, alt_shortens; apply lit_shortens ].
  destruct H as [s1 [H H1]].
  assert (Hlt : String.length s1 < String.length s) by lia.
  clear H1 Hr1.
  apply plus_greedy_shorter in H. destruct H as [s2 [H _]].
  apply plus_lazy_run in H. destruct H as [pre [s3 [-> [Hpre H]]]].
  destruct (name_end s3); [|discriminate].
  injection H as <- <- _. split.
  - destruct (String.length s - String.length s1) as [|n] eqn:E; [lia|].
    rewrite Hs. exists c, (take n r0). split; [reflexivity | exact Hc].
  - now rewrite take_append.
Qed.

Lemma findall_from_In (n : nat) (s g1 g2 : string) :
  In (g1, g2) (findall_from n s) ->
  exists s' rest, movement_re s' = Some (g1, g2, rest).
Proof.
  revert s. induction n as [|n IH]; intros s; cbn [findall_from];
    [intros []|].
  destruct (movement_re s) as [[[h1 h2] rest]|] eqn:E.
  - intros [[= <- <-]|H]; [now exists s, rest | now apply IH in H].
  - destruct s as [|c s]; [intros [] | apply IH].
Qed.

Lemma found_movements_In (workout_lines : list string) (m : string) :
  In m (found_movements workout_lines) ->
  (3 < String.length m < 50)
  /\ exists line g1 g2,
      In line workout_lines /\ In (g1, g2) (findall line)
      /\ m = (g1 ++ " " ++ strip g2)%string.
Proof.
  unfold found_movements. intros H.
  apply in_flat_map in H. destruct H as [line [Hline H]].
  apply in_flat_map in H. destruct H as [[g1 g2] [Hg H]].
  unfold movement_of in H. cbn [fst snd] in H.
  destruct ((3 <? String.length (g1 ++ " " ++ strip g2))%nat
            && (String.length (g1 ++ " " ++ strip g2) <? 50)%nat) eqn:E;
    [|contradiction].
  destruct H as [<-|[]].
  apply andb_true_iff in E. rewrite !Nat.ltb_lt in E.
  split; [lia|]. now exists line, g1, g2.
Qed.

Lemma movement_shape (workout_lines : list string) (m : string) :
  In m (found_movements workout_lines) ->
  3 < String.length m < 50
  /\ exists quantity name,
      m = (quantity ++ " " ++ name)%string
      /\ (exists c q, quantity = String c q /\ char_isdigit c = true)
      /\ all_chars name_char name
      /\ trimmed name.
Proof.
  intros H. apply found_movements_In in H.
  destruct H as [Hlen [line [g1 [g2 [_ [Hg ->]]]]]].
  split; [exact Hlen|].
  apply findall_from_In in Hg. destruct Hg as [s' [rest Hg]].
  apply movement_re_groups in Hg. destruct Hg as [Hq Hn].
  exists g1, (strip g2). repeat split; [exact Hq | | apply strip_trimmed].
  now apply all_chars_rstrip, all_chars_lstrip.
Qed.

End MovementShape.

(** X3. Every movement of a record has more than 3 and fewer than 50
    characters and is a quantity, one space and a name: the quantity
    begins with a decimal digit, the name is made of ASCII letters,
    hyphens and whitespace only and has no whitespace at either end. *)
Theorem X3_movement_shape (soup : node) (date_str m : string) :
  In m (movements (extract_workout_content soup date_str)) ->
  3 < String.length m < 50
  /\ exists quantity name,
      m = (quantity ++ " " ++ name)%string
      /\ (exists c q, quantity = String c q /\ char_isdigit c = true)
      /\ all_chars
           (fun c => between 97 122 c || between 65 90 c || is_code 45 c
                     || char_isspace c) name
      /\ strip name = name.
Proof.
  unfold extract_workout_content.
  destruct (str_in "rest day" (page_text soup)); cbn [movements];
    [intros []|].
  intros H.
  apply (movement_shape (collect_workout_lines (lines_of soup))).
  now apply (movements_of_spec (collect_workout_lines (lines_of soup))).
Qed.

Lemma X3_movement_shape_witness :
  In "1,000-meter row"
     (movements (extract_workout_content scaled_games_page "250704"))
  /\ 3 < String.length "1,000-meter row" < 50
  /\ exists quantity name,
      "1,000-meter row" = (quantity ++ " " ++ name)%string
      /\ (exists c q, quantity = String c q /\ char_isdigit c = true)
      /\ all_chars
           (fun c => between 97 122 c || between 65 90 c || is_code 45 c
                     || char_isspace c) name
      /\ strip name = name.
Proof.
  assert (H : In "1,000-meter row"
                 (movements (extract_workout_content scaled_games_page "250704")))
    by now left.
  split; [exact H | exact (X3_movement_shape scaled_games_page "250704" _ H)].
Defined.

(* ================================================================== *)
(** ** The lines of the description *)

Section DescriptionLines.

Lemma up_to_first_In {A : Type} (p : A -> bool) (l : list A) (x : A) :
  In x (up_to_first p l) -> In x l /\ p x = false.
Proof.
  induction l as [|y l IH]; simpl; [tauto|].
  destruct (p y) eqn:E; [intros []|].
  intros [<-|H]; [now split; [left|] | split; [right|]; now apply IH].
Qed.

Lemma workout_body_In (lines : list string) (line : string) :
  In line (workout_body lines) ->
  In line (map strip lines)
  /\ looked_at line = true
  /\ is_terminator line = false
  /\ is_bold_marked line = false.
Proof.
  unfold workout_body. intros H.
  apply filter_In in H. destruct H as [H Hb].
  apply up_to_first_In in H. destruct H as [H Ht].
  apply from_first_incl, filter_In in H. destruct H as [H Hl].
  apply negb_true_iff in Hb. tauto.
Qed.

Lemma description_lines (soup : node) (date_str : string) :
  is_rest_day (extract_workout_content soup date_str) = false ->
  description (extract_workout_content soup date_str) <> "" ->
  split_nl (description (extract_workout_content soup date_str))
  = firstn 10 (workout_body (lines_of soup)).
Proof.
  rewrite is_rest_day_spec. intros Hrest.
  unfold extract_workout_content. rewrite Hrest. cbn [description].
  rewrite collect_workout_lines_spec, description_of_join. intros Hne.
  apply split_nl_join.
  - intros E. rewrite E in Hne. now apply Hne.
  - apply Forall_forall. intros x Hx. apply In_firstn in Hx.
    pose proof (workout_body_one_line (get_text soup)) as H.
    rewrite Forall_forall in H. now apply H.
Qed.

End DescriptionLines.

(** X4. On a page that is not a rest day, every line of a description
    that is not empty is a line of the page, trimmed; it is not empty,
    does not begin with "**", and holds neither a section marker nor
    "commented on:" in any letter case. *)
Theorem X4_description_lines (soup : node) (date_str line : string) :
  is_rest_day (extract_workout_content soup date_str) = false ->
  description (extract_workout_content soup date_str) <> "" ->
  In line (split_nl (description (extract_workout_content soup date_str))) ->
  (exists raw, In raw (split_nl (get_text soup)) /\ line = strip raw)
  /\ line <> ""
  /\ startswith line "**" = false
  /\ (forall marker,
         In marker ["stimulus"; "scaling"; "intermediate option";
                    "beginner option"; "coaching"; "resources"; "comments";
                    "post time"; "commented on:"] ->
         ~ occurs_any_case marker line).
Proof.
  intros Hrest Hne Hin.
  rewrite (description_lines _ _ Hrest Hne) in Hin.
  apply In_firstn, workout_body_In in Hin.
  destruct Hin as [Hraw [Hlook [Hterm Hbold]]].
  unfold looked_at in Hlook. apply andb_true_iff in Hlook.
  destruct Hlook as [Hempty Hcomment].
  rewrite negb_true_iff in Hempty, Hcomment.
  split; [|split; [|split; [exact Hbold|]]].
  - apply in_map_iff in Hraw. destruct Hraw as [raw [<- Hraw]]. now exists raw.
  - intros ->. discriminate.
  - intros marker Hm.
    assert (Hs : In marker section_markers \/ marker = "commented on:").
    { unfold section_markers. simpl in *. intuition auto. }
    destruct Hs as [Hs| ->].
    + now apply (any_in_lower_false section_markers line Hterm).
    + intros Hocc. apply occurs_any_case_lower, str_in_spec in Hocc.
      congruence.
Qed.

Lemma X4_description_lines_witness :
  is_rest_day (extract_workout_content scaled_games_page "250704") = false
  /\ description (extract_workout_content scaled_games_page "250704") <> ""
  /\ In "15 Thrusters"
        (split_nl (description (extract_workout_content scaled_games_page "250704")))
  /\ (exists raw,
         In raw (split_nl (get_text scaled_games_page))
         /\ "15 Thrusters" = strip raw)
  /\ "15 Thrusters" <> ""
  /\ startswith "15 Thrusters" "**" = false
  /\ (forall marker,
         In marker ["stimulus"; "scaling"; "intermediate option";
                    "beginner option"; "coaching"; "resources"; "comments";
                    "post time"; "commented on:"] ->
         ~ occurs_any_case marker "15 Thrusters").
Proof.
  assert (Hne : description (extract_workout_content scaled_games_page "250704")
                <> "") by discriminate.
  assert (Hin : In "15 Thrusters"
                   (split_nl (description
                                (extract_workout_content scaled_games_page "250704"))))
    by (right; right; now left).
  split; [reflexivity|]. split; [exact Hne|]. split; [exact Hin|].
  exact (X4_description_lines scaled_games_page "250704" "15 Thrusters"
           eq_refl Hne Hin).
Defined.

(* ================================================================== *)
(** ** Sections *)

Section Sections.




Lemma stimulus_lines_none (lines : list string) :
  (forall line, In line lines -> stimulus_header line = false) ->
  stimulus_lines lines = [].
Proof.
  induction lines as [|x lines IH]; intros H; cbn [stimulus_lines];
    [reflexivity|].
  pose proof (H x (or_introl eq_refl)) as Hx.
  unfold stimulus_header in Hx. rewrite Hx.
  apply IH. intros line Hl. apply H. now right.
Qed.

Lemma scaling_section_none (lines : list string) :
  (forall line, In line lines -> str_in "scaling:" (lower line) = false) ->
  scaling_section lines = [].
Proof.
  induction lines as [|x lines IH]; intros H; cbn [scaling_section];
    [reflexivity|].
  rewrite (H x (or_introl eq_refl)).
  apply IH. intros line Hl. apply H. now right.
Qed.

Lemma option_blocks_none (option_type : string) (lines : list string) :
  (forall line, In line lines -> str_in option_type (lower line) = false) ->
  option_blocks option_type lines = [].
Proof.
  induction lines as [|x lines IH]; intros H; cbn [option_blocks];
    [reflexivity|].
  rewrite (H x (or_introl eq_refl)). cbn [andb app].
  apply IH. intros line Hl. apply H. now right.
Qed.

Lemma str_in_lower_false (phrase raw : string) :
  ~ occurs_any_case phrase raw -> str_in phrase (lower raw) = false.
Proof.
  intros H. apply str_in_false. intros Hocc. apply H.
  now apply occurs_lower_any_case.
Qed.

Lemma stimulus_of_join (lines : list string) :
  stimulus_of lines = join " " (stimulus_lines lines).
Proof. unfold stimulus_of. now destruct (stimulus_lines lines). Qed.

End Sections.



(** X6. A page without a section gives an empty field: when no line
    holds "stimulus:" or "stimulus and strategy:" the stimulus text is
    empty, and when no line holds "scaling:", "intermediate option:" or
    "beginner option:" the scaling text is empty (in any letter case,
    rest day or not). *)
Theorem X6_missing_sections_are_empty (soup : node) (date_str : string) :
  (forall line phrase,
      In line (split_nl (get_text soup)) ->
      In phrase ["stimulus:"; "stimulus and strategy:"; "scaling:";
                 "intermediate option:"; "beginner option:"] ->
      ~ occurs_any_case phrase line) ->
  stimulus (extract_workout_content soup date_str) = ""
  /\ scaling (extract_workout_content soup date_str) = "".
Proof.
  intros H. unfold extract_workout_content.
  destruct (str_in "rest day" (page_text soup)); cbn [stimulus scaling];
    [now split|].
  assert (Hno : forall phrase,
             In phrase ["stimulus:"; "stimulus and strategy:"; "scaling:";
                        "intermediate option:"; "beginner option:"] ->
             forall line, In line (lines_of soup) ->
                          str_in phrase (lower line) = false).
  { intros phrase Hp line Hl. apply str_in_lower_false. now apply H. }
  split.
  - rewrite stimulus_of_join, stimulus_lines_none; [reflexivity|].
    intros line Hl. unfold stimulus_header.
    rewrite (Hno "stimulus and strategy:"), (Hno "stimulus:");
      simpl; tauto.
  - unfold scaling_of, scaling_parts, option_types. cbn [flat_map].
    rewrite scaling_section_none by (apply Hno; simpl; tauto).
    rewrite !option_blocks_none by (apply Hno; simpl; tauto).
    reflexivity.
Qed.

Lemma X6_missing_sections_are_empty_witness :
  (forall line phrase,
      In line (split_nl (get_text hero_page)) ->
      In phrase ["stimulus:"; "stimulus and strategy:"; "scaling:";
                 "intermediate option:"; "beginner option:"] ->
      ~ occurs_any_case phrase line)
  /\ stimulus (extract_workout_content hero_page "250526") = ""
  /\ scaling (extract_workout_content hero_page "250526") = "".
Proof.
  assert (H : forall line phrase,
             In line (split_nl (get_text hero_page)) ->
             In phrase ["stimulus:"; "stimulus and strategy:"; "scaling:";
                        "intermediate option:"; "beginner option:"] ->
             ~ occurs_any_case phrase line).
  { intros line phrase Hl.
    apply (any_in_lower_false
             ["stimulus:"; "stimulus and strategy:"; "scaling:";
              "intermediate option:"; "beginner option:"]).
    vm_compute in Hl.
    repeat (destruct Hl as [<-|Hl]; [reflexivity|]). destruct Hl. }
  split; [exact H | exact (X6_missing_sections_are_empty hero_page "250526" H)].
Defined.

(* ================================================================== *)
(** ** Date codes *)

Import Dates CrossFitWODScraper.

Section DateCodes.

Lemma digit_isdigit (n : nat) : char_isdigit (digit n) = true.
Proof.
  unfold digit. pose proof (Nat.mod_upper_bound n 10) as H.
  destruct (n mod 10) as [|[|[|[|[|[|[|[|[|[|k]]]]]]]]]];
    try reflexivity. lia.
Qed.

Lemma two_digits_shape (n : nat) :
  String.length (two_digits n) = 2 /\ all_chars char_isdigit (two_digits n).
Proof.
  split; [reflexivity|]. unfold two_digits.
  apply all_chars_cons. split; [apply digit_isdigit|].
  apply all_chars_cons. split; [apply digit_isdigit | reflexivity].
Qed.

Lemma all_chars_append (p : ascii -> bool) (a b : string) :
  all_chars p a -> all_chars p b -> all_chars p (a ++ b).
Proof.
  intros Ha Hb. induction a as [|c a IH]; [exact Hb|].
  apply all_chars_cons in Ha. destruct Ha as [Hc Ha].
  simpl. apply all_chars_cons. split; [exact Hc | now apply IH].
Qed.

Lemma strftime_yymmdd_shape (d : date) :
  String.length (strftime_yymmdd d) = 6
  /\ all_chars char_isdigit (strftime_yymmdd d).
Proof.
  unfold strftime_yymmdd. split.
  - now rewrite !length_append.
  - repeat apply all_chars_append; apply two_digits_shape.
Qed.

Lemma valid_date_ranges (d : date) :
  valid_date d = true -> 1 <= month d <= 12 /\ 1 <= day d <= 31.
Proof.
  unfold valid_date. rewrite !andb_true_iff, !Nat.leb_le.
  intros [[[[[_ _] Hm1] Hm2] Hd1] Hd2]. split; [lia|]. split; [lia|].
  etransitivity; [exact Hd2|]. unfold days_in_month.
  destruct (month d) as [|[|[|[|[|[|[|[|[|[|[|[|[|k]]]]]]]]]]]]];
    try destruct (is_leap (year d)); lia.
Qed.

End DateCodes.

(** X7. The URL of a workout is "https://www.crossfit.com/" followed by
    six decimal digits, for the date given or, without one, for today. *)
Theorem X7_workout_url_shape (today : date) (d : option date) :
  exists code,
    get_workout_url today d = ("https://www.crossfit.com/" ++ code)%string
    /\ String.length code = 6
    /\ all_chars char_isdigit code
    /\ code = strftime_yymmdd (match d with Some d' => d' | None => today end).
Proof.
  unfold get_workout_url. eexists. split; [reflexivity|].
  destruct (strftime_yymmdd_shape (match d with Some d' => d' | None => today end))
    as [Hl Hd].
  repeat split; assumption.
Qed.

Section Related.

Context {A B : Type} (f : A -> B).

Lemma lit_related (t : string) : related f (lit t) (lit t).
Proof.
  intros s kA kB H. unfold lit. destruct (prefix t s); [apply H | reflexivity].
Qed.

Lemma one_related (p : ascii -> bool) : related f (one p) (one p).
Proof.
  intros s kA kB H. unfold one. destruct s as [|c r]; [reflexivity|].
  destruct (p c); [apply H | reflexivity].
Qed.

Lemma alt_related (m1A m2A : @matcher A) (m1B m2B : @matcher B) :
  related f m1A m1B -> related f m2A m2B ->
  related f (alt m1A m2A) (alt m1B m2B).
Proof.
  intros H1 H2 s kA kB H. unfold alt, orelse.
  rewrite (H1 s kA kB H), (H2 s kA kB H).
  now destruct (m1A s kA).
Qed.

Lemma seq_related (m1A m2A : @matcher A) (m1B m2B : @matcher B) :
  related f m1A m1B -> related f m2A m2B ->
  related f (seq m1A m2A) (seq m1B m2B).
Proof.
  intros H1 H2 s kA kB H. unfold seq. apply H1.
  intros r. now apply H2.
Qed.

Lemma month_re_related : related f month_re month_re.
Proof.
  unfold month_re.
  repeat first [ apply alt_related | apply seq_related
               | apply lit_related | apply one_related ].
Qed.

Lemma day_re_related : related f day_re day_re.
Proof.
  unfold day_re.
  repeat first [ apply alt_related | apply seq_related
               | apply lit_related | apply one_related ].
Qed.

End Related.

(** After two digits the pattern goes on with the month and the day. *)
Lemma yymmdd_re_after_year (a b : ascii) (r : string) :
  char_isdigit a = true -> char_isdigit b = true ->
  yymmdd_re (String a (String b r))
  = option_map (fun g => (String a (String b ""), fst (fst g), snd (fst g), snd g))
               (month_day_groups r).
Proof.
  intros Ha Hb. unfold yymmdd_re, month_day_groups.
  unfold seq at 1. unfold one at 1 2. rewrite Ha, Hb.
  apply month_re_related. intros s2.
  apply day_re_related. intros s3. cbn [option_map fst snd].
  change (String a (String b r)) with (String a (String b "") ++ r)%string.
  now rewrite take_append.
Qed.

(** All the months and days are tried. *)
Lemma month_day_found_all :
  forallb (fun m => forallb (month_day_found m) (List.seq 1 31)) (List.seq 1 12)
  = true.
Proof. vm_compute. reflexivity. Qed.

Lemma int_two_digits_all :
  forallb (fun n => (int (two_digits n) =? n)%nat) (List.seq 0 100) = true.
Proof. vm_compute. reflexivity. Qed.

Lemma int_two_digits (n : nat) : n < 100 -> int (two_digits n) = n.
Proof.
  intros H. pose proof int_two_digits_all as Hall.
  rewrite forallb_forall in Hall. apply Nat.eqb_eq, Hall, in_seq. lia.
Qed.

Lemma month_day_groups_spec (m dd : nat) :
  1 <= m <= 12 -> 1 <= dd <= 31 ->
  month_day_groups (two_digits m ++ two_digits dd)
  = Some (two_digits m, two_digits dd, "").
Proof.
  intros Hm Hd. pose proof month_day_found_all as Hall.
  rewrite forallb_forall in Hall.
  assert (Hin : In m (List.seq 1 12)) by (apply in_seq; lia).
  specialize (Hall m Hin). rewrite forallb_forall in Hall.
  assert (Hin' : In dd (List.seq 1 31)) by (apply in_seq; lia).
  specialize (Hall dd Hin'). unfold month_day_found in Hall.
  destruct (month_day_groups (two_digits m ++ two_digits dd))
    as [[[gm gd] rest]|]; [|discriminate].
  rewrite !andb_true_iff, !String.eqb_eq in Hall.
  now destruct Hall as [[-> ->] ->].
Qed.

(** The year that a two-digit year stands for is the year it was made
    from, inside the window. *)
Lemma pivot_year (y : nat) :
  1969 <= y <= 2068 ->
  (if (y mod 100 <=? 68)%nat then 2000 + y mod 100 else 1900 + y mod 100) = y.
Proof.
  intros H.
  pose proof (Nat.div_mod_eq y 100) as E.
  pose proof (Nat.mod_upper_bound y 100) as Hr.
  destruct (y mod 100 <=? 68)%nat eqn:Hp.
  - apply Nat.leb_le in Hp. lia.
  - apply Nat.leb_gt in Hp. lia.
Qed.

Lemma strptime_strftime_window (d : date) :
  valid_date d = true ->
  1969 <= year d <= 2068 ->
  strptime_yymmdd (strftime_yymmdd d) = Some d.
Proof.
  intros Hv Hy. destruct (valid_date_ranges d Hv) as [Hm Hd].
  unfold strptime_yymmdd, strftime_yymmdd.
  unfold two_digits at 1. cbn [append].
  rewrite yymmdd_re_after_year by apply digit_isdigit.
  rewrite month_day_groups_spec by assumption.
  cbn [option_map fst snd]. rewrite String.eqb_refl.
  fold (two_digits (year d mod 100)).
  rewrite !int_two_digits by (try apply Nat.mod_upper_bound; lia).
  rewrite (pivot_year _ Hy).
  replace (mk_date (year d) (month d) (day d)) with d by now destruct d.
  now rewrite Hv.
Qed.

(** X8. A date code made from a date between 1969 and 2068 is read back
    as that date. *)
Theorem X8_date_code_round_trip (d : date) :
  valid_date d = true ->
  1969 <= year d <= 2068 ->
  strptime_yymmdd (strftime_yymmdd d) = Some d.
Proof. apply strptime_strftime_window. Qed.

Lemma X8_date_code_round_trip_witness :
  valid_date (mk_date 2024 2 29) = true
  /\ 1969 <= year (mk_date 2024 2 29) <= 2068
  /\ strptime_yymmdd (strftime_yymmdd (mk_date 2024 2 29))
     = Some (mk_date 2024 2 29).
Proof.
  assert (Hy : 1969 <= year (mk_date 2024 2 29) <= 2068) by (simpl; lia).
  split; [reflexivity|]. split; [exact Hy|].
  exact (X8_date_code_round_trip (mk_date 2024 2 29) eq_refl Hy).
Defined.

Section Strptime.








End Strptime.


Example strptime_cases :
  strptime_yymmdd "250704" = Some (mk_date 2025 7 4)
  /\ strptime_yymmdd "690101" = Some (mk_date 1969 1 1)
  /\ strptime_yymmdd "680101" = Some (mk_date 2068 1 1)
  /\ strptime_yymmdd "000229" = Some (mk_date 2000 2 29)
  /\ strptime_yymmdd "010229" = None
  /\ strptime_yymmdd "251131" = None
  /\ strptime_yymmdd "25111" = Some (mk_date 2025 11 1)
  /\ strptime_yymmdd "25110" = Some (mk_date 2025 1 10)
  /\ strptime_yymmdd "2511" = Some (mk_date 2025 1 1)
  /\ strptime_yymmdd "2507 4" = Some (mk_date 2025 7 4)
  /\ strptime_yymmdd "250704 " = None
  /\ strptime_yymmdd "251301" = None
  /\ strptime_yymmdd "" = None
  /\ option_map strftime_long (strptime_yymmdd "250704") = Some "July 04, 2025".
Proof. vm_compute. repeat split. Qed.



(* ================================================================== *)
(** ** The CSV row of a workout *)

Import CSVLogger.

Section CsvRow.

Lemma any_char_append (f : ascii -> bool) (a b : string) :
  any_char f (a ++ b) = any_char f a || any_char f b.
Proof.
  induction a as [|c a IH]; simpl; [reflexivity|].
  now rewrite IH, orb_assoc.
Qed.

Lemma replace_char_keeps (f : ascii -> bool) (old : ascii) (new s : string) :
  any_char f new = false -> any_char f s = false ->
  any_char f (WorkoutData.replace_char old new s) = false.
Proof.
  intros Hnew. induction s as [|c s IH]; simpl; [reflexivity|].
  intros H. apply orb_false_iff in H. destruct H as [Hc Hs].
  destruct (Ascii.eqb c old).
  - rewrite any_char_append, Hnew. now apply IH.
  - simpl. rewrite Hc. now apply IH.
Qed.

Lemma replace_char_removes (old : ascii) (new s : string) :
  any_char (fun c => Ascii.eqb c old) new = false ->
  any_char (fun c => Ascii.eqb c old) (WorkoutData.replace_char old new s) = false.
Proof.
  intros Hnew. induction s as [|c s IH]; simpl; [reflexivity|].
  destruct (Ascii.eqb c old) eqn:E.
  - now rewrite any_char_append, Hnew.
  - simpl. now rewrite E.
Qed.

Lemma flatten_flat (s : string) :
  one_line (WorkoutData.flatten s) /\ no_return (WorkoutData.flatten s).
Proof.
  unfold WorkoutData.flatten. split.
  - apply replace_char_keeps; [reflexivity|].
    now apply replace_char_removes.
  - now apply replace_char_removes.
Qed.

Lemma universal_newlines_id (s : string) :
  no_return s -> universal_newlines s = s.
Proof.
  unfold no_return, universal_newlines.
  induction s as [|c s IH]; simpl; [reflexivity|].
  intros H. apply orb_false_iff in H. destruct H as [Hc Hs].
  rewrite Hc. destruct (Ascii.eqb_spec c newline) as [->|Hn]; now rewrite IH.
Qed.




Lemma replace_char_append (old : ascii) (new a b : string) :
  WorkoutData.replace_char old new (a ++ b)
  = (WorkoutData.replace_char old new a ++ WorkoutData.replace_char old new b)%string.
Proof.
  induction a as [|c a IH]; simpl; [reflexivity|].
  destruct (Ascii.eqb c old); rewrite IH; [now rewrite append_assoc|].
  reflexivity.
Qed.

Lemma replace_char_absent (old : ascii) (new s : string) :
  any_char (fun c => Ascii.eqb c old) s = false ->
  WorkoutData.replace_char old new s = s.
Proof.
  induction s as [|c s IH]; simpl; [reflexivity|].
  intros H. apply orb_false_iff in H. destruct H as [Hc Hs].
  now rewrite Hc, IH.
Qed.

Lemma replace_newline_join (new : string) (parts : list string) :
  Forall one_line parts ->
  WorkoutData.replace_char newline new (join nl parts) = join new parts.
Proof.
  induction 1 as [|x parts Hx Hall IH]; [reflexivity|].
  destruct parts as [|y parts].
  - simpl. now apply replace_char_absent.
  - change (join nl (x :: y :: parts))
      with (x ++ nl ++ join nl (y :: parts))%string.
    change (join new (x :: y :: parts))
      with (x ++ new ++ join new (y :: parts))%string.
    rewrite !replace_char_append, IH, (replace_char_absent _ _ x Hx).
    simpl. now rewrite append_nil_r.
Qed.

End CsvRow.

(** X11. In the CSV row of any workout the description, scaling and
    stimulus columns hold neither a newline nor a carriage return, and
    the three flags are "True" or "False"; so these six columns are read
    back from the file as they were written. *)
Theorem X11_flat_columns (workout : WorkoutData.t) :
  let row := WorkoutData.to_csv_row workout in
  (one_line (Row.description row) /\ no_return (Row.description row))
  /\ (one_line (Row.scaling row) /\ no_return (Row.scaling row))
  /\ (one_line (Row.stimulus row) /\ no_return (Row.stimulus row))
  /\ Row.is_named_workout row
     = (if WorkoutData.is_named_workout workout then "True" else "False")
  /\ Row.is_hero_workout row
     = (if WorkoutData.is_hero_workout workout then "True" else "False")
  /\ Row.is_rest_day row
     = (if WorkoutData.is_rest_day workout then "True" else "False")
  /\ Row.description (read_row row) = Row.description row
  /\ Row.scaling (read_row row) = Row.scaling row
  /\ Row.stimulus (read_row row) = Row.stimulus row
  /\ Row.is_named_workout (read_row row) = Row.is_named_workout row
  /\ Row.is_hero_workout (read_row row) = Row.is_hero_workout row
  /\ Row.is_rest_day (read_row row) = Row.is_rest_day row.
Proof.
  intros row. subst row. cbn.
  repeat split; try apply flatten_flat;
    try (apply universal_newlines_id; apply flatten_flat);
    unfold WorkoutData.str_of_bool;
    match goal with
    | |- context [if ?b then _ else _] => destruct b; reflexivity
    end.
Qed.

(** X12. On a page that is not a rest day, the description column of the
    CSV row is the first 10 lines of the collected body joined with
    " | ", without their carriage returns; the movements column is the
    movements joined with " | ". *)
Theorem X12_csv_description (soup : node) (date_str now : string)
        (workout : WorkoutData.t) :
  parse_workout_data soup date_str now = Some workout ->
  WorkoutData.is_rest_day workout = false ->
  Row.description (WorkoutData.to_csv_row workout)
  = WorkoutData.replace_char WorkoutData.carriage_return ""
      (join " | " (firstn 10 (collect_workout_lines (split_nl (get_text soup)))))
  /\ Row.movements (WorkoutData.to_csv_row workout)
     = join " | " (movements (extract_workout_content soup date_str)).
Proof.
  unfold parse_workout_data.
  destruct (strptime_yymmdd date_str); [|discriminate].
  intros [= <-]. cbn [WorkoutData.is_rest_day]. intros Hrest.
  cbn [WorkoutData.to_csv_row Row.description Row.movements WorkoutData.description
       WorkoutData.movements].
  split.
  - rewrite is_rest_day_spec in Hrest.
    unfold extract_workout_content at 1. rewrite Hrest. cbn [description].
    rewrite description_of_join. unfold WorkoutData.flatten. f_equal.
    apply replace_newline_join.
    apply Forall_forall. intros x Hx. apply In_firstn in Hx.
    rewrite collect_workout_lines_spec in Hx.
    pose proof (workout_body_one_line (get_text soup)) as H.
    rewrite Forall_forall in H. now apply H.
  - now destruct (movements (extract_workout_content soup date_str)).
Qed.

Lemma X12_csv_description_witness :
  exists workout,
    parse_workout_data scaled_games_page "250704" "2025-07-05T06:00:00"
    = Some workout
    /\ WorkoutData.is_rest_day workout = false
    /\ Row.description (WorkoutData.to_csv_row workout)
       = "5 rounds for time: | 1,000-meter row, 20 Pull-ups (kipping) | 15 Thrusters"
    /\ Row.movements (WorkoutData.to_csv_row workout)
       = "1,000-meter row | 15 Thrusters".
Proof.
  assert (E : exists workout,
             parse_workout_data scaled_games_page "250704"
               "2025-07-05T06:00:00" = Some workout
             /\ WorkoutData.is_rest_day workout = false).
  { eexists. split; [vm_compute; reflexivity | reflexivity]. }
  destruct E as [workout [E Hrest]]. exists workout.
  destruct (X12_csv_description scaled_games_page "250704"
              "2025-07-05T06:00:00" workout E Hrest) as [Hd Hm].
  split; [exact E|]. split; [exact Hrest|].
  split; [rewrite Hd | rewrite Hm]; vm_compute; reflexivity.
Defined.

(* ================================================================== *)
(** ** The log *)

Section Log.







End Log.











Example sample_log_overwritten :
  map Row.title (reader (fst (log_workout sample_log fran_workout true)))
  = ["MEMORIAL MURPH"; "FRAN"]
  /\ map Row.title (reader (fst (log_workout sample_log fran_workout false)))
     = ["MEMORIAL MURPH"; "250704"]
  /\ get_workout_stats (fst (log_workout sample_log fran_workout true))
     = mk_stats 2 2 1 0 (Some "FRAN").
Proof. repeat split. Qed.

(** A date code with a carriage return in it is not found again: the
    text mode reads it back with a newline. *)
Example carriage_return_is_not_read_back :
  let code := String WorkoutData.carriage_return "250704" in
  let workout :=
    WorkoutData.mk "FRAN" "" [] "" "" "July 04, 2025" code true false false "" in
  workout_exists (fst (log_workout [] workout false)) code = false.
Proof. reflexivity. Qed.

(* ================================================================== *)
(** ** The statistics of a log that this program wrote *)

Section LoggedRows.

Lemma flags_consistent (soup : node) (date_str : string) :
  let r := extract_workout_content soup date_str in
  (is_hero_workout r = true -> is_named_workout r = true)
  /\ (is_rest_day r = true -> is_named_workout r = false).
Proof.
  intros r. subst r. unfold extract_workout_content.
  destruct (str_in "rest day" (page_text soup)); cbn.
  - split; [discriminate | reflexivity].
  - split; [intros ->; apply orb_true_r | discriminate].
Qed.

Lemma str_of_bool_true (b : bool) :
  (universal_newlines (WorkoutData.str_of_bool b) =? "True") = b.
Proof. now destruct b. Qed.

(** The flags of a row that this program wrote, as they are read. *)
Lemma logged_row_flags (row : Row.t) :
  logged_row row ->
  ((Row.is_hero_workout (read_row row) =? "True") = true ->
   (Row.is_named_workout (read_row row) =? "True") = true)
  /\ ((Row.is_rest_day (read_row row) =? "True") = true ->
      (Row.is_named_workout (read_row row) =? "True") = false).
Proof.
  intros [soup [date_str [now [workout [Hparse ->]]]]].
  unfold parse_workout_data in Hparse.
  destruct (strptime_yymmdd date_str); [|discriminate].
  injection Hparse as <-.
  cbn [read_row WorkoutData.to_csv_row Row.is_hero_workout
       Row.is_named_workout Row.is_rest_day WorkoutData.is_hero_workout
       WorkoutData.is_named_workout WorkoutData.is_rest_day].
  rewrite !str_of_bool_true. apply flags_consistent.
Qed.

Lemma count_logged_rows (rows : list Row.t) (st : stats) :
  Forall logged_row rows ->
  hero_workouts st <= named_workouts st ->
  named_workouts st + rest_days st <= total_workouts st ->
  let final := fold_left count_row (map read_row rows) st in
  hero_workouts final <= named_workouts final
  /\ named_workouts final + rest_days final <= total_workouts final.
Proof.
  intros Hall. revert st.
  induction Hall as [|row rows Hrow Hall IH]; intros st H1 H2;
    cbn [map fold_left]; [now split|].
  apply IH; destruct (logged_row_flags row Hrow) as [Hh Hr];
    cbn [count_row hero_workouts named_workouts rest_days total_workouts];
    destruct (Row.is_hero_workout (read_row row) =? "True");
    destruct (Row.is_rest_day (read_row row) =? "True");
    destruct (Row.is_named_workout (read_row row) =? "True");
    try (specialize (Hh eq_refl)); try (specialize (Hr eq_refl));
    try discriminate; lia.
Qed.

End LoggedRows.

(** X18. In the statistics of a file whose rows were all written by this
    program, the hero workouts are at most the named workouts, and the
    named workouts and the rest days together are at most the total. *)
Theorem X18_stats_of_logged_rows (csvfile : file) :
  Forall logged_row csvfile ->
  let st := get_workout_stats csvfile in
  hero_workouts st <= named_workouts st
  /\ named_workouts st + rest_days st <= total_workouts st.
Proof.
  intros H. apply (count_logged_rows csvfile (mk_stats 0 0 0 0 None) H);
    cbn; lia.
Qed.

Lemma X18_stats_of_logged_rows_witness :
  let csvfile :=
    match parse_workout_data hero_page "250526" "2025-05-26T06:00:00",
          parse_workout_data rest_day_page "250704" "2025-07-04T06:00:00" with
    | Some hero, Some rest =>
        [WorkoutData.to_csv_row hero; WorkoutData.to_csv_row rest]
    | _, _ => []
    end in
  Forall logged_row csvfile
  /\ let st := get_workout_stats csvfile in
     hero_workouts st <= named_workouts st
     /\ named_workouts st + rest_days st <= total_workouts st.
Proof.
  intros csvfile.
  assert (H : Forall logged_row csvfile).
  { subst csvfile.
    destruct (parse_workout_data hero_page "250526" "2025-05-26T06:00:00")
      as [hero|] eqn:E1; [|constructor].
    destruct (parse_workout_data rest_day_page "250704" "2025-07-04T06:00:00")
      as [rest|] eqn:E2; [|constructor].
    repeat constructor.
    - now exists hero_page, "250526", "2025-05-26T06:00:00", hero.
    - now exists rest_day_page, "250704", "2025-07-04T06:00:00", rest. }
  split; [exact H | exact (X18_stats_of_logged_rows csvfile H)].
Defined.
